(** * Resource-aware sampling of the autoscaling subsystem

    A shallow embedding of
    - [packages/utils/src/internals/cGroupsVersion.ts]: the control-group
      version detector, the CPU sampler ([getCpuInfo] and its helpers) and
      the [LocalEventManager] that publishes [SystemInfo] snapshots;
    - the [weightedAvg] helper exercised by the utilities test-suite.

    JavaScript numbers are IEEE 754 binary64 values: they are modelled by
    Rocq's primitive floats, so every arithmetic expression of the source is
    evaluated with the rounding, the signed zeros, the infinities and the
    NaN of the running program.  Promises are modelled by a state, trace
    and error monad: a rejected promise is an [Err] outcome, module-level
    variables are threaded as state and every call that leaves the process
    (file reads, [os.cpus()], the event bus) is recorded in a trace. *)

From Stdlib Require Import ZArith List Ascii String Bool Floats Lia.
From stdpp Require Import base option gmap strings.
Import ListNotations.

Local Open Scope string_scope.
Local Open Scope list_scope.
Local Open Scope Z_scope.

(* ===================================================================== *)
(** * The JavaScript built-ins the sampler relies on *)
(* ===================================================================== *)

Module JS.

(** ** Numbers *)

(** [ℝ → 𝔽]: the binary64 value nearest to the integer [z]
    (ties to even). *)
Definition ofZ (z : Z) : float :=
  SF2Prim (binary_normalize prec emax z 0 false).

(** The binary64 value nearest to the positive rational [num / den]
    ([0 < num], [0 < den]), with the sign [neg].  The quotient is computed
    on at least 64 bits and a sticky bit records an inexact division, so
    the final rounding to 53 bits is the correct one. *)
Definition ofQ (neg : bool) (num den : Z) : float :=
  let s := Z.max 0 (65 + Z.log2 den - Z.log2 num) in
  let q := (num * 2 ^ s) / den in
  let r := (num * 2 ^ s) mod den in
  let m := 2 * q + (if r =? 0 then 0 else 1) in
  SF2Prim (binary_normalize prec emax (if neg then - m else m) (- (s + 1)) false).

(** [m × 10^e] as a number, [-0] or [+0] when [m] is zero. *)
Definition ofDecimal (neg : bool) (m e : Z) : float :=
  if m =? 0 then (if neg then (-0)%float else 0%float)
  else if 0 <=? e then ofQ neg (m * 10 ^ e) 1
  else ofQ neg m (10 ^ (- e)).

(** [ToBoolean] of a number: [+0], [-0] and [NaN] are falsy. *)
Definition truthy (x : float) : bool :=
  negb (PrimFloat.eqb x 0%float) && PrimFloat.eqb x x.

(** [x === y] on numbers. *)
Definition strictEq (x y : float) : bool := PrimFloat.eqb x y.

Definition isNaN (x : float) : bool := negb (PrimFloat.eqb x x).

(** ** Strings (the pseudo-files read by the sampler are ASCII) *)

(** [WhiteSpace] and [LineTerminator] code points below 128: the
    characters matched by the regular expression class [\s] and removed by
    [String.prototype.trim]. *)
Definition isWhiteSpace (c : ascii) : bool :=
  let n := nat_of_ascii c in
  ((n =? 9) || (n =? 10) || (n =? 11) || (n =? 12) || (n =? 13) || (n =? 32))%nat.

Fixpoint trimStart (s : string) : string :=
  match s with
  | String c s' => if isWhiteSpace c then trimStart s' else s
  | EmptyString => EmptyString
  end.

Definition reverse (s : string) : string :=
  string_of_list_ascii (List.rev (list_ascii_of_string s)).

Definition trimEnd (s : string) : string := reverse (trimStart (reverse s)).

(** [s.trim()] *)
Definition trim (s : string) : string := trimEnd (trimStart s).

(** [s.split(sep)] for a one-character separator string. *)
Fixpoint split (sep : ascii) (s : string) : list string :=
  match s with
  | EmptyString => [EmptyString]
  | String c s' =>
      if Ascii.eqb c sep then EmptyString :: split sep s'
      else match split sep s' with
           | h :: t => String c h :: t
           | [] => [String c EmptyString]
           end
  end.

Fixpoint splitWsFrom (inSeparator : bool) (s : string) : list string :=
  match s with
  | EmptyString => [EmptyString]
  | String c s' =>
      if isWhiteSpace c then
        if inSeparator then splitWsFrom true s'
        else EmptyString :: splitWsFrom true s'
      else match splitWsFrom false s' with
           | h :: t => String c h :: t
           | [] => [String c EmptyString]
           end
  end.

(** [s.split(/\s+/)]: the separators are the maximal runs of white space. *)
Definition splitWs (s : string) : list string := splitWsFrom false s.

(** [l.slice(from, to)] for [0 <= from <= to]. *)
Definition slice {A} (from to : nat) (l : list A) : list A :=
  firstn (to - from) (skipn from l).

(** [s.startsWith(p)] *)
Definition startsWith (p s : string) : bool := String.prefix p s.

(** ** Parsing numbers *)

Definition digitOf (radix : Z) (c : ascii) : option Z :=
  let n := Z.of_nat (nat_of_ascii c) in
  let v := if (48 <=? n) && (n <=? 57) then n - 48
           else if (97 <=? n) && (n <=? 122) then n - 87
           else if (65 <=? n) && (n <=? 90) then n - 55
           else 36 in
  if v <? radix then Some v else None.

(** The longest prefix of digits of [s] in the given radix: its value, the
    number of digits, and the rest of the string. *)
Fixpoint digits (radix : Z) (acc : Z) (count : nat) (s : string) : Z * nat * string :=
  match s with
  | String c s' =>
      match digitOf radix c with
      | Some d => digits radix (radix * acc + d) (S count) s'
      | None => (acc, count, s)
      end
  | EmptyString => (acc, count, s)
  end.

Definition signOf (s : string) : bool * string :=
  match s with
  | String "-" r => (true, r)
  | String "+" r => (false, r)
  | _ => (false, s)
  end.

(** [parseInt(s, 10)]: leading white space is skipped, an optional sign is
    read, then the longest run of decimal digits; no digit gives [NaN]. *)
Definition parseInt10 (s : string) : float :=
  let '(neg, body) := signOf (trimStart s) in
  let '(v, n, _) := digits 10 0 0 body in
  match n with
  | O => nan
  | _ => ofDecimal neg v 0
  end.

(** [StrUnsignedDecimalLiteral] other than [Infinity]:
    [digits . digits? exp?], [. digits exp?] or [digits exp?]. *)
Definition unsignedDecimal (neg : bool) (s : string) : option float :=
  let '(ip, ni, r1) := digits 10 0 0 s in
  let '(m, nf, r2) :=
    match r1 with
    | String "." r =>
        let '(m, nf, r2) := digits 10 ip 0 r in (m, Some nf, r2)
    | _ => (ip, None, r1)
    end in
  let wellFormed :=
    match ni, nf with
    | O, None => false
    | O, Some O => false
    | _, _ => true
    end in
  let frac := Z.of_nat (default O nf) in
  if negb wellFormed then None
  else match r2 with
       | EmptyString => Some (ofDecimal neg m (- frac))
       | String c r3 =>
           if Ascii.eqb c "e" || Ascii.eqb c "E" then
             let '(eneg, r4) := signOf r3 in
             match digits 10 0 0 r4 with
             | (_, O, _) => None
             | (e, _, EmptyString) =>
                 Some (ofDecimal neg m ((if eneg then - e else e) - frac))
             | _ => None
             end
           else None
       end.

Definition strDecimal (s : string) : option float :=
  let '(neg, body) := signOf s in
  if String.eqb body "Infinity"
  then Some (if neg then neg_infinity else infinity)
  else unsignedDecimal neg body.

(** [NonDecimalIntegerLiteral]: [0x], [0o] and [0b] literals, unsigned. *)
Definition nonDecimal (s : string) : option float :=
  match s with
  | String "0" (String p r) =>
      let radix :=
        if Ascii.eqb p "x" || Ascii.eqb p "X" then Some 16
        else if Ascii.eqb p "o" || Ascii.eqb p "O" then Some 8
        else if Ascii.eqb p "b" || Ascii.eqb p "B" then Some 2
        else None in
      match radix with
      | Some rx =>
          match digits rx 0 0 r with
          | (_, O, _) => None
          | (v, _, EmptyString) => Some (ofDecimal false v 0)
          | _ => None
          end
      | None => None
      end
  | _ => None
  end.

(** [Number(s)] on a string ([StringToNumber]): white space around the
    literal is ignored, the empty string is [+0], anything that is not a
    numeric literal is [NaN]. *)
Definition StringToNumber (s : string) : float :=
  let t := trim s in
  match t with
  | EmptyString => 0%float
  | _ => match nonDecimal t with
         | Some x => x
         | None => default nan (strDecimal t)
         end
  end.

(** [Number(v)] where [v] is a string or [undefined] (an array element
    that does not exist). *)
Definition Number (v : option string) : float :=
  match v with
  | Some s => StringToNumber s
  | None => nan
  end.

(** [parseInt(v, 10)] where [v] is a string or [undefined]. *)
Definition parseInt (v : option string) : float :=
  match v with
  | Some s => parseInt10 s
  | None => parseInt10 "undefined"
  end.

End JS.

(* ===================================================================== *)
(** * The process, its environment and asynchronous computations *)
(* ===================================================================== *)

(** What a rejected promise or a [throw] carries. *)
Inductive Exn : Type :=
  | FsError (syscall path : string)   (* a rejected [node:fs/promises] call *)
  | Error (message : string)          (* [new Error(message)] *)
  | Failure (who : string).           (* a failing collaborator *)

Inductive CgroupsVersion : Type := V1 | V2.

(** One entry of [os.cpus()]: the [times] object of a logical core. *)
Record CpuTimes : Type := mkCpuTimes {
  user : float;
  nice : float;
  sys : float;
  idle : float;
  irq : float
}.

(** The fields of [getMemoryInfo()]'s result read by the event manager. *)
Record MemoryInfo : Type := mkMemoryInfo {
  mainProcessBytes : float;
  childProcessesBytes : float
}.

(** What the process can observe while one call runs. *)
Record World : Type := mkWorld {
  platform : string;                  (* [process.platform] *)
  env : gmap string string;           (* [process.env] *)
  containerised : bool;               (* what [isContainerised()] resolves to *)
  inaccessible : gmap string Exn;     (* paths on which [access] rejects *)
  files : gmap string (Exn + string); (* [readFile(_, 'utf8')]: rejection or
                                         content; no entry, no such file *)
  cpus : list CpuTimes;               (* [os.cpus()] *)
  now : Z;                            (* time value of [new Date()] *)
  memoryInfo : Exn + MemoryInfo       (* outcome of [getMemoryInfo()] *)
}.

Record CpuSample : Type := mkCpuSample {
  containerUsage : float;   (* in nanoseconds *)
  systemUsage : float       (* in nanoseconds *)
}.

(** The module-level variables that are assigned at run time. *)
Record ModuleState : Type := mkModuleState {
  _cgroupsVersion : option CgroupsVersion;   (* [undefined] until detected *)
  previousSample : CpuSample
}.

(** Values stored in the plain objects built by the event manager. *)
Inductive Value : Type :=
  | VDate (time : Z)
  | VNumber (x : float)
  | VBoolean (b : bool).

(** Calls that leave the module, in the order they are issued. *)
Inductive Event : Type :=
  | IsContainerised
  | Access (path : string)
  | ReadFile (path : string)
  | Cpus
  | GetMemoryInfo
  | LogException (err : Exn) (message : string)
  | Emit (eventType : string) (info : gmap string Value)
  | IntervalCallback.

Inductive Completion (A : Type) : Type :=
  | Ok (a : A)
  | Err (e : Exn).
Arguments Ok {A} a.
Arguments Err {A} e.

Record Outcome (A : Type) : Type := mkOutcome {
  completion : Completion A;
  final : ModuleState;
  trace : list Event
}.
Arguments mkOutcome {A} _ _ _.
Arguments completion {A} _.
Arguments final {A} _.
Arguments trace {A} _.

(** A computation of the module: it runs in a world, from a module state,
    and settles with a value or an exception. *)
Definition Async (A : Type) : Type := World → ModuleState → Outcome A.

Definition ret {A} (a : A) : Async A := λ _ st, mkOutcome (Ok a) st [].

Definition bind {A B} (m : Async A) (k : A → Async B) : Async B :=
  λ w st,
    let o := m w st in
    match completion o with
    | Ok a =>
        let o' := k a w (final o) in
        mkOutcome (completion o') (final o') (trace o ++ trace o')
    | Err e => mkOutcome (Err e) (final o) (trace o)
    end.

#[global] Instance async_ret : MRet Async := @ret.
#[global] Instance async_bind : MBind Async := λ A B k m, bind m k.

Definition throw {A} (e : Exn) : Async A := λ _ st, mkOutcome (Err e) st [].

(** [try { body } catch (err) { handler(err) }] *)
Definition tryCatch {A} (body : Async A) (handler : Exn → Async A) : Async A :=
  λ w st,
    let o := body w st in
    match completion o with
    | Ok a => o
    | Err e =>
        let o' := handler e w (final o) in
        mkOutcome (completion o') (final o') (trace o ++ trace o')
    end.

(** [Promise.all([m1, m2])]: both computations are started, in order; the
    result is rejected as soon as one of them is.  When both reject, the
    model reports the rejection of the first. *)
Definition promiseAll2 {A B} (m1 : Async A) (m2 : Async B) : Async (A * B) :=
  λ w st,
    let o1 := m1 w st in
    let o2 := m2 w (final o1) in
    mkOutcome
      match completion o1, completion o2 with
      | Ok a, Ok b => Ok (a, b)
      | Err e, _ => Err e
      | _, Err e => Err e
      end
      (final o2) (trace o1 ++ trace o2).

Definition ask : Async World := λ w st, mkOutcome (Ok w) st [].
Definition get : Async ModuleState := λ _ st, mkOutcome (Ok st) st [].
Definition put (st : ModuleState) : Async unit := λ _ _, mkOutcome (Ok ()) st [].
Definition tell (ev : Event) : Async unit := λ _ st, mkOutcome (Ok ()) st [ev].

(** ** The environment's entry points *)

(** [access(path)] of [node:fs/promises]. *)
Definition access (path : string) : Async unit :=
  tell (Access path);;
  w ← ask;
  match inaccessible w !! path with
  | None => mret ()
  | Some e => throw e
  end.

(** [readFile(path, 'utf8')] of [node:fs/promises]. *)
Definition readFile (path : string) : Async string :=
  tell (ReadFile path);;
  w ← ask;
  match files w !! path with
  | Some (inr data) => mret data
  | Some (inl e) => throw e
  | None => throw (FsError "open" path)
  end.

(** [cpus()] of [node:os]. *)
Definition os_cpus : Async (list CpuTimes) :=
  tell Cpus;; w ← ask; mret (cpus w).

(** Modelled from the spec: [isContainerised()] of [./general], which is
    not among the sources; a function of the environment that resolves to
    a boolean. *)
Definition isContainerised : Async bool :=
  tell IsContainerised;; w ← ask; mret (containerised w).

(** Modelled from the spec: [getMemoryInfo()], the memory sampler, which
    is not among the sources; it supplies byte counts or fails. *)
Definition getMemoryInfo : Async MemoryInfo :=
  tell GetMemoryInfo;;
  w ← ask;
  match memoryInfo w with
  | inr info => mret info
  | inl e => throw e
  end.

(* ===================================================================== *)
(** * [cGroupsVersion.ts]: control-group version detector *)
(* ===================================================================== *)

Definition set_cgroupsVersion (v : CgroupsVersion) : Async unit :=
  st ← get;
  put {| _cgroupsVersion := Some v; previousSample := previousSample st |}.

Definition CGROUP_MEMORY_DIR : string := "/sys/fs/cgroup/memory/".

(** [getCgroupsVersion()].  The final [return _cgroupsVersion] reads the
    variable assigned two lines above it. *)
Definition getCgroupsVersion : Async CgroupsVersion :=
  st ← get;
  match _cgroupsVersion st with
  | Some v => mret v
  | None =>
      set_cgroupsVersion V1;;
      (* If this directory does not exist, assume cgroups V2. *)
      tryCatch (access CGROUP_MEMORY_DIR) (λ _, set_cgroupsVersion V2);;
      st' ← get;
      mret (default V2 (_cgroupsVersion st'))
  end.

(* ===================================================================== *)
(** * The CPU sampler *)
(* ===================================================================== *)

Module CPU_FILE_PATHS.
Definition STAT (v : CgroupsVersion) : string :=
  match v with
  | V1 => "/sys/fs/cgroup/cpuacct/cpuacct.usage"
  | V2 => "/sys/fs/cgroup/cpu.stat"
  end.
Definition QUOTA (v : CgroupsVersion) : string :=
  match v with
  | V1 => "/sys/fs/cgroup/cpu/cpu.cfs_quota_us"
  | V2 => "/sys/fs/cgroup/cpu.max"
  end.
Definition PERIOD (v : CgroupsVersion) : string :=
  match v with
  | V1 => "/sys/fs/cgroup/cpu/cpu.cfs_period_us"
  | V2 => "/sys/fs/cgroup/cpu.max"
  end.
End CPU_FILE_PATHS.

Definition PROC_STAT : string := "/proc/stat".

Definition CLOCK_TICKS_PER_SECOND : float := 100%float. (* typical Linux tick rate *)
Definition NANOSECONDS_PER_SECOND : float := 1e9%float.

Record Ticks : Type := mkTicks { ticks_idle : float; ticks_total : float }.

(** [const previousTicks = { idle: 0, total: 0 }]: no statement of the
    module assigns the binding or its fields. *)
Definition previousTicks : Ticks := mkTicks 0 0.

(** [Object.values(cpu.times)]: five numbers, in the order of the keys. *)
Definition Object_values (t : CpuTimes) : list float :=
  [user t; nice t; sys t; idle t; irq t].

(** [l.reduce((sum, num) => sum + num)] without an initial value, on a
    list that is not empty: the first element starts the sum.  (The empty
    list, on which [reduce] throws, is never passed: see [Object_values].) *)
Definition reduce_add (l : list float) : float :=
  match l with
  | x :: r => fold_left PrimFloat.add r x
  | [] => nan
  end.

(** The accumulator of [cpusCores.reduce(..., { idle: 0, total: 0 })]. *)
Definition sumTicks (cpusCores : list CpuTimes) : Ticks :=
  fold_left
    (λ acc cpu,
       let cpuTimes := Object_values cpu in
       mkTicks (ticks_idle acc + idle cpu)%float
               (ticks_total acc + reduce_add cpuTimes)%float)
    cpusCores (mkTicks 0 0).

(** [getCurrentCpuTicks()]: the "bare metal" cpu load. *)
Definition getCurrentCpuTicks : Async float :=
  cpusCores ← os_cpus;
  let ticks := sumTicks cpusCores in
  let idleTicksDelta := (ticks_idle ticks - ticks_idle previousTicks)%float in
  let totalTicksDelta := (ticks_total ticks - ticks_total previousTicks)%float in
  mret (if JS.truthy totalTicksDelta
        then (1 - idleTicksDelta / totalTicksDelta)%float
        else 0%float).

(** [getCpuQuota(cgroupsVersion)]: [None] is [null], "unlimited". *)
Definition getCpuQuota (cgroupsVersion : CgroupsVersion) : Async (option float) :=
  match cgroupsVersion with
  | V1 =>
      quotaStr ← readFile (CPU_FILE_PATHS.QUOTA V1);
      let quota := JS.parseInt (Some (JS.trim quotaStr)) in
      mret (if JS.strictEq quota (-1)%float then None else Some quota)
  | V2 =>
      maxStr ← readFile (CPU_FILE_PATHS.QUOTA V2);
      let parts := JS.splitWs (JS.trim maxStr) in
      if bool_decide (parts !! 0%nat = Some "max") then mret None
      else mret (Some (JS.parseInt (parts !! 0%nat)))
  end.

(** [getCpuPeriod(cgroupsVersion)] *)
Definition getCpuPeriod (cgroupsVersion : CgroupsVersion) : Async float :=
  match cgroupsVersion with
  | V1 =>
      quotaStr ← readFile (CPU_FILE_PATHS.PERIOD V1);
      let quota := JS.parseInt (Some (JS.trim quotaStr)) in
      mret quota
  | V2 =>
      maxStr ← readFile (CPU_FILE_PATHS.PERIOD V2);
      let parts := JS.splitWs (JS.trim maxStr) in
      mret (JS.parseInt (parts !! 1%nat))
  end.

(** The [for (const line of lines)] loop of [getContainerCpuUsage]:
    [usageUsec] keeps its initial value unless a [usage_usec] line is met. *)
Fixpoint scanUsageUsec (lines : list string) (usageUsec : float) : float :=
  match lines with
  | [] => usageUsec
  | line :: rest =>
      let parts := JS.splitWs (JS.trim line) in
      if bool_decide (parts !! 0%nat = Some "usage_usec")
      then JS.Number (parts !! 1%nat)
      else scanUsageUsec rest usageUsec
  end.

(** [getContainerCpuUsage(cgroupsVersion)] *)
Definition getContainerCpuUsage (cgroupsVersion : CgroupsVersion) : Async float :=
  match cgroupsVersion with
  | V1 =>
      data ← readFile (CPU_FILE_PATHS.STAT V1);
      mret (JS.Number (Some (JS.trim data)))
  | V2 =>
      data ← readFile (CPU_FILE_PATHS.STAT V2);
      let lines := JS.split "010" data in
      let usageUsec := scanUsageUsec lines 0%float in
      (* Convert microseconds to nanoseconds. *)
      mret (usageUsec * 1000)%float
  end.

(** The [for (const line of lines)] loop of [getSystemCpuUsage]. *)
Fixpoint scanCpuLine (lines : list string) : Async float :=
  match lines with
  | [] => throw (Error "no cpu line")
  | line :: rest =>
      if JS.startsWith "cpu " line then
        (* user, nice, system, idle, iowait, irq, softirq *)
        let parts := JS.slice 1 8 (JS.splitWs line) in
        let totalTicks :=
          fold_left (λ totalTicks part, (totalTicks + JS.Number (Some part))%float)
                    parts 0%float in
        (* Convert clock ticks to nanoseconds. *)
        mret ((totalTicks * NANOSECONDS_PER_SECOND) / CLOCK_TICKS_PER_SECOND)%float
      else scanCpuLine rest
  end.

(** [getSystemCpuUsage()] *)
Definition getSystemCpuUsage : Async float :=
  statData ← readFile PROC_STAT;
  let lines := JS.split "010" statData in
  scanCpuLine lines.

(** [sampleCpuUsage(cGroupsVersion)] *)
Definition sampleCpuUsage (cGroupsVersion : CgroupsVersion) : Async CpuSample :=
  '(containerUsage, systemUsage) ←
     promiseAll2 (getContainerCpuUsage cGroupsVersion) getSystemCpuUsage;
  mret (mkCpuSample containerUsage systemUsage).

Definition set_previousSample (sample : CpuSample) : Async unit :=
  st ← get;
  put {| _cgroupsVersion := _cgroupsVersion st; previousSample := sample |}.

(** [!!process.env.AWS_LAMBDA_FUNCTION_MEMORY_SIZE]: set and not empty. *)
Definition envTruthy (v : option string) : bool :=
  match v with
  | Some (String _ _) => true
  | _ => false
  end.

(** [process.platform === 'linux' &&
     !!process.env.AWS_LAMBDA_FUNCTION_MEMORY_SIZE] *)
Definition isLambdaEnvironment (w : World) : bool :=
  String.eqb (platform w) "linux"
  && envTruthy (env w !! "AWS_LAMBDA_FUNCTION_MEMORY_SIZE").

(** [getCpuInfo()] *)
Definition getCpuInfo : Async float :=
  w ← ask;
  let isLambdaEnvironment := isLambdaEnvironment w in
  isContainerisedVar ←
    (if negb isLambdaEnvironment then isContainerised else ret false);
  if isLambdaEnvironment then
    (* AWS Lambda does not expose useful cgroup info for CPU. *)
    getCurrentCpuTicks
  else if (isContainerisedVar : bool) then
    cgroupsVersion ← getCgroupsVersion;
    quota ← getCpuQuota cgroupsVersion;
    match quota with
    | None =>
        (* no cgroup limit, return host cpu load *)
        getCurrentCpuTicks
    | Some quota =>
        period ← getCpuPeriod cgroupsVersion;
        let cpuAllowance := (quota / period)%float in
        sample ← sampleCpuUsage cgroupsVersion;
        st ← get;
        let containerDelta :=
          (containerUsage sample - containerUsage (previousSample st))%float in
        let systemDelta :=
          (systemUsage sample - systemUsage (previousSample st))%float in
        set_previousSample sample;;
        cpusCores ← os_cpus;
        let numCpus := JS.ofZ (Z.of_nat (length cpusCores)) in
        (* Calculate the CPU usage percentage. *)
        mret (((containerDelta / systemDelta) * numCpus * 100) / cpuAllowance)%float
    end
  else
    (* bare metal cpu limit *)
    getCurrentCpuTicks.

(* ===================================================================== *)
(** * [LocalEventManager]: the system-info aggregator *)
(* ===================================================================== *)

(** The configuration keys read by the manager. *)
Record Configuration : Type := mkConfiguration {
  systemInfoIntervalMillis : float;
  maxUsedCpuRatio : float
}.

Module LocalEventManager.

(** Modelled from the spec: [EventType.SYSTEM_INFO], the single published
    event type; the enumeration is declared in [./event_manager], which is
    not among the sources. *)
Definition SYSTEM_INFO : string := "systemInfo".

(** [log.exception(err, message)] of the package [@apify/log]: the
    exception is logged, nothing is thrown. *)
Definition log_exception (err : Exn) (message : string) : Async unit :=
  tell (LogException err message).

(** Helper methods for easier mocking. *)
Definition _getCpuInfo : Async float := getCpuInfo.
Definition _getMemoryInfo : Async MemoryInfo := getMemoryInfo.

(** [createCpuInfo(options)]; the argument is [options.maxUsedCpuRatio]. *)
Definition createCpuInfo (options_maxUsedCpuRatio : float)
  : Async (gmap string Value) :=
  tryCatch
    (usedCpuRatio ← _getCpuInfo;
     mret (<["cpuCurrentUsage" := VNumber (usedCpuRatio * 100)%float]>
           (<["isCpuOverloaded" :=
                VBoolean (options_maxUsedCpuRatio <? usedCpuRatio)%float]> ∅)))
    (λ err, log_exception err "Cpu snapshot failed.";; mret ∅).

(** [createMemoryInfo()] *)
Definition createMemoryInfo : Async (gmap string Value) :=
  tryCatch
    (memInfo ← _getMemoryInfo;
     mret (<["memCurrentBytes" :=
               VNumber (mainProcessBytes memInfo + childProcessesBytes memInfo)%float]> ∅))
    (λ err, log_exception err "Memory snapshot failed.";; mret ∅).

(** [createSystemInfo(options)]: in the object literal
    [{ createdAt: new Date(), ...cpu, ...memory }] a later spread
    overrides the keys before it. *)
Definition createSystemInfo (options_maxUsedCpuRatio : float)
  : Async (gmap string Value) :=
  w ← ask;
  let createdAt := VDate (now w) in
  cpu ← createCpuInfo options_maxUsedCpuRatio;
  memory ← createMemoryInfo;
  mret (memory ∪ (cpu ∪ <["createdAt" := createdAt]> ∅)).

(** [emitSystemInfoEvent(intervalCallback)] *)
Definition emitSystemInfoEvent (config : Configuration)
    (intervalCallback : Async unit) : Async unit :=
  info ← createSystemInfo (maxUsedCpuRatio config);
  tell (Emit SYSTEM_INFO info);;
  intervalCallback.

End LocalEventManager.

(* ===================================================================== *)
(** * The repeating timer that drives the aggregator *)
(* ===================================================================== *)

(** Modelled from the spec: the repeating timer of the aggregator,
    [betterSetInterval(func, delay)] of the package [@apify/utilities],
    which is not among the sources.  It calls [func] at once and hands it
    a callback; the next call of [func] is put on a timeout only when
    [func] calls that callback, and [betterClearInterval] stops the
    rescheduling and cancels a pending timeout.

    The state of one such interval, as created by [init()]: an invocation
    of [func] that has not settled is represented by the calls it has yet
    to issue, so that several invocations could be outstanding at once. *)
Record Loop : Type := mkLoop {
  isRunning : bool;                      (* cleared by [betterClearInterval] *)
  timeoutPending : bool;                 (* a timeout for the next call is set *)
  outstanding : list (list Event);       (* unsettled invocations of [func] *)
  moduleState : ModuleState;
  published : list (gmap string Value)   (* snapshots delivered so far *)
}.

(** The callback handed to [func]; the loop schedules the next call when
    it meets this event. *)
Definition scheduleCall : Async unit := tell IntervalCallback.

(** One invocation of [emitSystemInfoEvent] started in world [w]. *)
Definition invoke (config : Configuration) (w : World) (st : ModuleState)
  : Outcome unit :=
  LocalEventManager.emitSystemInfoEvent config scheduleCall w st.

(** [init()] on a manager that is not initialised yet: [betterSetInterval]
    makes the first call immediately.  The delay
    [systemInfoIntervalMillis] separates the calls in time and plays no
    part in their order. *)
Definition init (config : Configuration) (w : World) (st : ModuleState) : Loop :=
  let o := invoke config w st in
  mkLoop true false [trace o] (final o) [].

(** What the loop does when an invocation issues the call [ev]. *)
Definition perform (ev : Event) (l : Loop) (outstanding' : list (list Event)) : Loop :=
  match ev with
  | IntervalCallback =>
      mkLoop (isRunning l) (if isRunning l then true else timeoutPending l)
             outstanding' (moduleState l) (published l)
  | Emit _ info =>
      mkLoop (isRunning l) (timeoutPending l) outstanding' (moduleState l)
             (published l ++ [info])
  | _ =>
      mkLoop (isRunning l) (timeoutPending l) outstanding' (moduleState l)
             (published l)
  end.

(** An invocation that has issued all its calls has settled. *)
Definition remaining (rest : list Event) : list (list Event) :=
  match rest with
  | [] => []
  | _ => [rest]
  end.

(** [close()] on an initialised manager:
    [betterClearInterval(this.intervals.systemInfo)] stops the
    rescheduling and cancels the pending timeout; an invocation that is
    outstanding is left to settle. *)
Definition close (l : Loop) : Loop :=
  mkLoop false false (outstanding l) (moduleState l) (published l).

Inductive step (config : Configuration) : Loop → Loop → Prop :=
  | step_timeout (l : Loop) (w : World) :
      (* the pending timeout fires: [func] is called again *)
      timeoutPending l = true →
      step config l
        (let o := invoke config w (moduleState l) in
         mkLoop (isRunning l) false (outstanding l ++ [trace o]) (final o)
                (published l))
  | step_progress (l : Loop) (before after : list (list Event))
        (ev : Event) (rest : list Event) :
      (* an outstanding invocation issues its next call *)
      outstanding l = before ++ (ev :: rest) :: after →
      step config l (perform ev l (before ++ remaining rest ++ after))
  | step_close (l : Loop) :
      (* the manager is closed *)
      step config l (close l).

(** The states the interval created by [init()] can be in. *)
Definition reachable (config : Configuration) (l : Loop) : Prop :=
  ∃ w st, rtc (step config) (init config w st) l.

(* ===================================================================== *)
(** * The weighted average of the autoscaling controller *)
(* ===================================================================== *)

(** Modelled from the spec: the two sums of [weightedAvg], whose source
    file is not among the sources (its tests are).  Both sums run over the
    positions of [arrValues], start from zero and are accumulated from
    left to right; a weight that does not exist is [undefined], a NaN in
    arithmetic. *)
Fixpoint weightedSums (arrValues arrWeights : list float) (acc : float * float)
  : float * float :=
  match arrValues with
  | [] => acc
  | value :: values =>
      let weight := default nan (head arrWeights) in
      weightedSums values (tail arrWeights)
        ((acc.1 + value * weight)%float, (acc.2 + weight)%float)
  end.

(** Modelled from the spec: [weightedAvg(values, weights)] of
    [@crawlee/utils], whose source file is not among the sources (its
    tests are): [Σ(value_i × weight_i) / Σ(weight_i)]. *)
Definition weightedAvg (arrValues arrWeights : list float) : float :=
  let result := weightedSums arrValues arrWeights (0%float, 0%float) in
  (result.1 / result.2)%float.

(* ===================================================================== *)
(** * Vocabulary of the statements *)
(* ===================================================================== *)

(** The state of a freshly loaded module. *)
Definition initialState : ModuleState :=
  mkModuleState None (mkCpuSample 0 0).

(** What a computation that does not read the module state settles with. *)
Definition settled {A} (m : Async A) (w : World) : Completion A :=
  completion (m w initialState).

(** [tr] followed by the calls of [o]. *)
Definition prepend {A} (tr : list Event) (o : Outcome A) : Outcome A :=
  mkOutcome (completion o) (final o) (tr ++ trace o).

(** What [readFile(path, 'utf8')] settles with. *)
Definition fileRead (w : World) (path : string) : Completion string :=
  match files w !! path with
  | Some (inr data) => Ok data
  | Some (inl e) => Err e
  | None => Err (FsError "open" path)
  end.

(** A computation that leaves the module state alone, issues the calls
    [tr] whatever happens, and settles independently of the state. *)
Definition reader {A} (m : Async A) (tr : list Event) : Prop :=
  ∀ w st, m w st = mkOutcome (settled m w) st tr.

(** The version found by the probe of a fresh module. *)
Definition detect (w : World) : CgroupsVersion :=
  match inaccessible w !! CGROUP_MEMORY_DIR with
  | None => V1
  | Some _ => V2
  end.

(** The version [getCgroupsVersion] answers with, and the calls it issues. *)
Definition versionIn (st : ModuleState) (w : World) : CgroupsVersion :=
  match _cgroupsVersion st with
  | Some v => v
  | None => detect w
  end.

Definition probe (st : ModuleState) : list Event :=
  match _cgroupsVersion st with
  | Some _ => []
  | None => [Access CGROUP_MEMORY_DIR]
  end.

(** The value returned by the finite-quota branch of [getCpuInfo]. *)
Definition quotaUsage (previous sample : CpuSample) (numCpus : nat)
    (quota period : float) : float :=
  ((((containerUsage sample - containerUsage previous)
     / (systemUsage sample - systemUsage previous))
    * JS.ofZ (Z.of_nat numCpus) * 100) / (quota / period))%float.

(** ** Concrete environments *)

Definition newline : string := String "010" EmptyString.

(** A Linux host outside any container, where every path is accessible. *)
Definition bareMetal (cores : list CpuTimes) : World :=
  {| platform := "linux"; env := ∅; containerised := false;
     inaccessible := ∅; files := ∅; cpus := cores; now := 0;
     memoryInfo := inr (mkMemoryInfo 0 0) |}.

(** A container under cgroups V1, given the contents of its four files. *)
Definition cgroupV1 (quota period usage stat : string) (cores : list CpuTimes)
  : World :=
  {| platform := "linux"; env := ∅; containerised := true;
     inaccessible := ∅;
     files := {[ CPU_FILE_PATHS.QUOTA V1 := inr quota;
                 CPU_FILE_PATHS.PERIOD V1 := inr period;
                 CPU_FILE_PATHS.STAT V1 := inr usage;
                 PROC_STAT := inr stat ]};
     cpus := cores; now := 0;
     memoryInfo := inr (mkMemoryInfo 0 0) |}.

(** A container under cgroups V2: the V1 memory directory does not exist. *)
Definition cgroupV2 (max cpuStat stat : string) (cores : list CpuTimes)
  : World :=
  {| platform := "linux"; env := ∅; containerised := true;
     inaccessible := {[ CGROUP_MEMORY_DIR := FsError "access" CGROUP_MEMORY_DIR ]};
     files := {[ CPU_FILE_PATHS.QUOTA V2 := inr max;
                 CPU_FILE_PATHS.STAT V2 := inr cpuStat;
                 PROC_STAT := inr stat ]};
     cpus := cores; now := 0;
     memoryInfo := inr (mkMemoryInfo 0 0) |}.

(** [n] cores with the same counters. *)
Definition cores (n : nat) (t : CpuTimes) : list CpuTimes := repeat t n.

(** A core that has been idle since boot. *)
Definition idleCore : CpuTimes := mkCpuTimes 0 0 0 100 0.

(** Scenario B: a container entitled to two cores of a four-core host.
    Between the two samples the host spends 400 ticks (4 s of CPU time at
    100 ticks per second) and the container one second of CPU time. *)
Definition scenarioB_first : World :=
  cgroupV1 ("200000" +:+ newline) ("100000" +:+ newline)
           ("1000000000" +:+ newline)
           ("cpu  100 0 100 200 0 0 0 0 0 0" +:+ newline
            +:+ "cpu0 25 0 25 50 0 0 0 0 0 0" +:+ newline)
           (cores 4 idleCore).

Definition scenarioB_second : World :=
  cgroupV1 ("200000" +:+ newline) ("100000" +:+ newline)
           ("2000000000" +:+ newline)
           ("cpu  300 0 100 400 0 0 0 0 0 0" +:+ newline
            +:+ "cpu0 75 0 25 100 0 0 0 0 0 0" +:+ newline)
           (cores 4 idleCore).

(** The content [data] of the quota file says "unlimited": the V1 file
    holds [-1], the first field of the V2 file is the marker [max]. *)
Definition unlimitedMarker (v : CgroupsVersion) (data : string) : Prop :=
  match v with
  | V1 => JS.strictEq (JS.parseInt (Some (JS.trim data))) (-1)%float = true
  | V2 => JS.splitWs (JS.trim data) !! 0%nat = Some "max"
  end.

(** The quota field of the quota file, as the sampler parses it. *)
Definition quotaField (v : CgroupsVersion) (data : string) : float :=
  match v with
  | V1 => JS.parseInt (Some (JS.trim data))
  | V2 => JS.parseInt (JS.splitWs (JS.trim data) !! 0%nat)
  end.

(** Scenario A: a container under cgroups V2 without a CPU limit. *)
Definition scenarioA : World :=
  cgroupV2 ("max 100000" +:+ newline) ("usage_usec 5" +:+ newline)
           ("cpu  1 2 3 4 5 6 7" +:+ newline)
           [mkCpuTimes 30 0 20 150 0; mkCpuTimes 10 0 40 150 0].

(** The branch of [getCpuInfo] a call takes; [None] when the call is
    rejected before the quota is known. *)
Inductive Branch : Type :=
  | Serverless
  | BareMetal
  | UnlimitedQuota
  | FiniteQuota.

Definition branchOf (w : World) (st : ModuleState) : option Branch :=
  if isLambdaEnvironment w then Some Serverless
  else if containerised w then
    match completion (getCgroupsVersion w st) with
    | Ok v =>
        match completion (getCpuQuota v w st) with
        | Ok None => Some UnlimitedQuota
        | Ok (Some _) => Some FiniteQuota
        | Err _ => None
        end
    | Err _ => None
    end
  else Some BareMetal.

(** [otherCalls st ws st']: calling [getCpuInfo] in the worlds [ws], one
    after the other from the module state [st], leads to [st'], and none
    of these calls takes the finite-quota branch. *)
Inductive otherCalls : ModuleState → list World → ModuleState → Prop :=
  | otherCalls_nil (st : ModuleState) : otherCalls st [] st
  | otherCalls_cons (st : ModuleState) (w : World) (ws : list World)
        (st' : ModuleState) :
      branchOf w st ≠ Some FiniteQuota →
      otherCalls (final (getCpuInfo w st)) ws st' →
      otherCalls st (w :: ws) st'.

(** The container of scenario B once its limit has been lifted, under
    cgroups V1: the quota file holds [-1]. *)
Definition scenarioB_unlimited : World :=
  cgroupV1 ("-1" +:+ newline) ("100000" +:+ newline)
           ("1500000000" +:+ newline)
           ("cpu  200 0 100 300 0 0 0 0 0 0" +:+ newline)
           (cores 4 idleCore).

(** The system-wide stat file has an aggregate line, one that starts with
    [cpu] and a space. *)
Definition hasCpuLine (statData : string) : bool :=
  existsb (JS.startsWith "cpu ") (JS.split "010" statData).

(** The V2 [cpu.stat] file has a line whose key is [usage_usec]. *)
Definition hasUsageUsec (data : string) : bool :=
  existsb
    (λ line, bool_decide (JS.splitWs (JS.trim line) !! 0%nat = Some "usage_usec"))
    (JS.split "010" data).

(** A V1 container whose usage file holds something that is not a number. *)
Definition garbledUsage : World :=
  cgroupV1 ("200000" +:+ newline) ("100000" +:+ newline)
           ("n/a" +:+ newline)
           ("cpu  100 0 100 200 0 0 0 0 0 0" +:+ newline)
           (cores 4 idleCore).

(** A V1 container whose system-wide stat file has per-core lines only. *)
Definition noAggregateLine : World :=
  cgroupV1 ("200000" +:+ newline) ("100000" +:+ newline)
           ("1000000000" +:+ newline)
           ("cpu0 25 0 25 50 0 0 0 0 0 0" +:+ newline)
           (cores 4 idleCore).

(** A V2 container whose [cpu.stat] has no [usage_usec] line. *)
Definition noUsageUsec : World :=
  cgroupV2 ("200000 100000" +:+ newline)
           ("user_usec 700" +:+ newline +:+ "system_usec 300" +:+ newline)
           ("cpu  100 0 100 200 0 0 0 0 0 0" +:+ newline)
           (cores 4 idleCore).

(** Two cores, ten percent busy since boot. *)
Definition ticksAtFirstCall : list CpuTimes :=
  cores 2 (mkCpuTimes 50 0 0 450 0).

(** The same two cores after an interval in which they were never idle. *)
Definition ticksAtSecondCall : list CpuTimes :=
  cores 2 (mkCpuTimes 550 0 0 450 0).

(** A core that was busy half of the time. *)
Definition halfBusyCore : CpuTimes := mkCpuTimes 40 0 10 50 0.

(** The field [key] of the object a computation settles with. *)
Definition field (key : string) (o : Outcome (gmap string Value))
  : option Value :=
  match completion o with
  | Ok object => object !! key
  | Err _ => None
  end.

(** The calls issued while sampling: neither the publication of a
    snapshot nor the interval callback. *)
Definition isSamplingCall (ev : Event) : bool :=
  match ev with
  | Emit _ _ | IntervalCallback => false
  | _ => true
  end.

(** A container whose quota file cannot be read, next to a memory sampler
    that works; and a host whose memory sampler fails. *)
Definition cpuSamplerFails : World :=
  {| platform := "linux"; env := ∅; containerised := true;
     inaccessible := ∅;
     files := {[ CPU_FILE_PATHS.QUOTA V1 :=
                   inl (FsError "read" (CPU_FILE_PATHS.QUOTA V1)) ]};
     cpus := cores 4 idleCore; now := 1714000000000;
     memoryInfo := inr (mkMemoryInfo 3000 1000) |}.

Definition memorySamplerFails : World :=
  {| platform := "linux"; env := ∅; containerised := false;
     inaccessible := ∅; files := ∅;
     cpus := cores 4 halfBusyCore; now := 1714000000000;
     memoryInfo := inl (Failure "getMemoryInfo") |}.

Definition config : Configuration := mkConfiguration 1000 0.75.

(** The calls an invocation of [emitSystemInfoEvent] has yet to issue end
    with the interval callback, and have it nowhere else. *)
Definition endsWithCallback (calls : list Event) : Prop :=
  ∃ before,
    calls = before ++ [IntervalCallback]
    ∧ Forall (λ ev, ev ≠ IntervalCallback) before.

(** The invariant of the timer loop: no invocation is outstanding, or
    exactly one is, and then no timeout is pending. *)
Definition oneAtATime (l : Loop) : Prop :=
  outstanding l = []
  ∨ ∃ calls,
      outstanding l = [calls] ∧ endsWithCallback calls
      ∧ timeoutPending l = false.

(** [Σ weight_i] and [Σ(value_i × weight_i)], summed from zero, from left
    to right. *)
Definition sumOf (l : list float) : float := fold_left PrimFloat.add l 0%float.

Definition sumOfProducts (arrValues arrWeights : list float) : float :=
  sumOf (zip_with PrimFloat.mul arrValues arrWeights).

(** A number that is [+0], [-0] or NaN. *)
Definition zeroOrNaN (x : float) : Prop :=
  match Prim2SF x with
  | S754_zero _ | S754_nan => True
  | _ => False
  end.

(** The snapshots published by the calls [tr], oldest first. *)
Definition snapshots (tr : list Event) : list (gmap string Value) :=
  omap (λ ev, match ev with Emit _ info => Some info | _ => None end) tr.

(** The four fields of a snapshot. *)
Definition fieldsOf (info : gmap string Value)
  : option Value * option Value * option Value * option Value :=
  (info !! "createdAt", info !! "cpuCurrentUsage", info !! "isCpuOverloaded",
   info !! "memCurrentBytes").

(** The loop after the outstanding invocation has issued the calls
    [calls], one by one. *)
Fixpoint play (calls : list Event) (l : Loop) : Loop :=
  match calls with
  | [] => l
  | ev :: rest => play rest (perform ev l (remaining rest))
  end.

(* ===================================================================== *)
(** * Vocabulary of the further properties *)
(* ===================================================================== *)

(** [Number.isFinite(x)]: neither an infinity nor NaN. *)
Definition finite (x : float) : Prop :=
  match Prim2SF x with
  | S754_zero _ | S754_finite _ _ _ => True
  | _ => False
  end.

(** The two functions the module exports. *)
Inductive Call : Type :=
  | CallGetCgroupsVersion
  | CallGetCpuInfo.

(** The module state left by one call, and the calls it issued. *)
Definition callOutcome (c : Call) (w : World) (st : ModuleState)
  : ModuleState * list Event :=
  match c with
  | CallGetCgroupsVersion =>
      let o := getCgroupsVersion w st in (final o, trace o)
  | CallGetCpuInfo =>
      let o := getCpuInfo w st in (final o, trace o)
  end.

(** A session: calls of the exported functions, one after the other, each
    in the world of its time. *)
Fixpoint session (calls : list (Call * World)) (st : ModuleState)
  : ModuleState * list Event :=
  match calls with
  | [] => (st, [])
  | (c, w) :: rest =>
      let one := callOutcome c w st in
      let others := session rest one.1 in
      (others.1, one.2 ++ others.2)
  end.

Definition isAccess (ev : Event) : bool :=
  match ev with
  | Access _ => true
  | _ => false
  end.

Definition isFileSystemCall (ev : Event) : bool :=
  match ev with
  | Access _ | ReadFile _ => true
  | _ => false
  end.

Definition isEmit (ev : Event) : bool :=
  match ev with
  | Emit _ _ => true
  | _ => false
  end.

(** The number of snapshots the outstanding invocations have yet to
    publish. *)
Definition emitsLeft (calls : list (list Event)) : nat :=
  length (List.filter isEmit (concat calls)).

(** [calls] is what is left of an invocation of [emitSystemInfoEvent]. *)
Definition restOfTick (cfg : Configuration) (calls : list Event) : Prop :=
  ∃ w st before, trace (invoke cfg w st) = before ++ calls.

(** The test of the loop of [getContainerCpuUsage]:
    [parts[0] === 'usage_usec']. *)
Definition isUsageUsecLine (line : string) : bool :=
  bool_decide (JS.splitWs (JS.trim line) !! 0%nat = Some "usage_usec").

(** The sum computed by the inner loop of [getSystemCpuUsage]. *)
Definition sumOfFields (parts : list string) : float :=
  fold_left (λ totalTicks part, (totalTicks + JS.Number (Some part))%float)
            parts 0%float.

(** The AWS Lambda sandbox, which also looks like a container. *)
Definition lambdaSandbox : World :=
  {| platform := "linux";
     env := {[ "AWS_LAMBDA_FUNCTION_MEMORY_SIZE" := "512" ]};
     containerised := true;
     inaccessible := ∅;
     files := {[ CPU_FILE_PATHS.QUOTA V1 := inr "200000" ]};
     cpus := cores 2 halfBusyCore; now := 0;
     memoryInfo := inr (mkMemoryInfo 0 0) |}.

(** A session that starts on bare metal and goes on in a V2 container,
    first without and then with a CPU limit. *)
Definition mixedSession : list (Call * World) :=
  [ (CallGetCpuInfo, bareMetal (cores 2 halfBusyCore));
    (CallGetCpuInfo, scenarioA);
    (CallGetCgroupsVersion, bareMetal []);
    (CallGetCpuInfo, noUsageUsec) ].

(** A [cpu.stat] file with two [usage_usec] lines after another key. *)
Definition cpuStatTwice : string :=
  "nr_periods 7" +:+ newline +:+ "  usage_usec 2500 " +:+ newline
  +:+ "usage_usec 9" +:+ newline.

(** A system-wide stat file whose aggregate line has ten fields and comes
    after a line that is not a [cpu] line. *)
Definition procStatTen : string :=
  "intr 12" +:+ newline +:+ "cpu  1 2 3 4 5 6 7 800 900 1000" +:+ newline
  +:+ "cpu 50 50 50 50 50 50 50" +:+ newline.

(** A V2 container whose [cpu.max] holds a quota and no period. *)
Definition noPeriodField : World :=
  cgroupV2 ("200000" +:+ newline) ("usage_usec 1000000" +:+ newline)
           ("cpu  100 0 100 200 0 0 0 0 0 0" +:+ newline)
           (cores 4 idleCore).

(** A number that is an infinity or NaN. *)
Definition infiniteOrNaN (x : float) : Prop :=
  match Prim2SF x with
  | S754_infinity _ | S754_nan => True
  | _ => False
  end.

(** Scenario B sampled again before any tick has elapsed: the container
    used some CPU time, the aggregate line has not moved. *)
Definition scenarioB_stalled : World :=
  cgroupV1 ("200000" +:+ newline) ("100000" +:+ newline)
           ("1000500000" +:+ newline)
           ("cpu  100 0 100 200 0 0 0 0 0 0" +:+ newline)
           (cores 4 idleCore).

(* ===================================================================== *)
(** * Running the computations *)
(* ===================================================================== *)

Ltac settle :=
  unfold prepend;
  cbn [completion final trace app get put tell ask ret mret async_ret throw
       _cgroupsVersion previousSample];
  rewrite <- ?app_assoc;
  cbn [app];
  try reflexivity.

Lemma bind_ok {A B} (m : Async A) (k : A → Async B) w st a st' tr :
  m w st = mkOutcome (Ok a) st' tr →
  (m ≫= k) w st = prepend tr (k a w st').
Proof. intros H. unfold mbind, async_bind, bind. rewrite H. reflexivity. Qed.

Lemma bind_err {A B} (m : Async A) (k : A → Async B) w st e st' tr :
  m w st = mkOutcome (Err e) st' tr →
  (m ≫= k) w st = mkOutcome (Err e) st' tr.
Proof. intros H. unfold mbind, async_bind, bind. rewrite H. reflexivity. Qed.

Lemma tryCatch_ok {A} (body : Async A) handler w st a st' tr :
  body w st = mkOutcome (Ok a) st' tr →
  tryCatch body handler w st = mkOutcome (Ok a) st' tr.
Proof. intros H. unfold tryCatch. rewrite H. reflexivity. Qed.

Lemma tryCatch_err {A} (body : Async A) handler w st e st' tr :
  body w st = mkOutcome (Err e) st' tr →
  tryCatch body handler w st = prepend tr (handler e w st').
Proof. intros H. unfold tryCatch. rewrite H. reflexivity. Qed.

Lemma prepend_prepend {A} tr tr' (o : Outcome A) :
  prepend tr (prepend tr' o) = prepend (tr ++ tr') o.
Proof. unfold prepend. simpl. rewrite app_assoc. reflexivity. Qed.

Lemma readFile_run path w st :
  readFile path w st = mkOutcome (fileRead w path) st [ReadFile path].
Proof.
  unfold readFile, fileRead.
  erewrite bind_ok by reflexivity. erewrite bind_ok by reflexivity.
  destruct (files w !! path) as [[e|data]|]; reflexivity.
Qed.

Lemma access_run path w st :
  access path w st =
  mkOutcome match inaccessible w !! path with
            | None => Ok ()
            | Some e => Err e
            end st [Access path].
Proof.
  unfold access.
  erewrite bind_ok by reflexivity. erewrite bind_ok by reflexivity.
  destruct (inaccessible w !! path); reflexivity.
Qed.

Lemma isContainerised_run w st :
  isContainerised w st = mkOutcome (Ok (containerised w)) st [IsContainerised].
Proof. reflexivity. Qed.

Lemma getMemoryInfo_run w st :
  getMemoryInfo w st =
  mkOutcome match memoryInfo w with
            | inr info => Ok info
            | inl e => Err e
            end st [GetMemoryInfo].
Proof.
  unfold getMemoryInfo.
  erewrite bind_ok by reflexivity. erewrite bind_ok by reflexivity.
  destruct (memoryInfo w); reflexivity.
Qed.

Lemma reader_intro {A} (m : Async A) (tr : list Event) (c : World → Completion A) :
  (∀ w st, m w st = mkOutcome (c w) st tr) → reader m tr.
Proof. intros H w st. unfold settled. rewrite !H. reflexivity. Qed.

Lemma reader_completion {A} (m : Async A) tr w st :
  reader m tr → completion (m w st) = settled m w.
Proof. intros H. rewrite (H w st). reflexivity. Qed.

Lemma getCurrentCpuTicks_reader : reader getCurrentCpuTicks [Cpus].
Proof. intros w st. reflexivity. Qed.

Lemma getCpuQuota_reader v :
  reader (getCpuQuota v) [ReadFile (CPU_FILE_PATHS.QUOTA v)].
Proof.
  apply (reader_intro _ _ (λ w, settled (getCpuQuota v) w)).
  intros w st. unfold settled.
  destruct v; unfold getCpuQuota.
  all: match goal with |- context [readFile ?p] =>
         destruct (fileRead w p) as [data|e] eqn:E end.
  all: try (erewrite !bind_err by (rewrite readFile_run, E; reflexivity); reflexivity).
  all: try erewrite !bind_ok by (rewrite readFile_run, E; reflexivity).
  all: cbv beta zeta.
  all: match goal with |- context [if ?b then _ else _] => destruct b end; reflexivity.
Qed.

Lemma getCpuPeriod_reader v :
  reader (getCpuPeriod v) [ReadFile (CPU_FILE_PATHS.PERIOD v)].
Proof.
  apply (reader_intro _ _ (λ w, settled (getCpuPeriod v) w)).
  intros w st. unfold settled.
  destruct v; unfold getCpuPeriod.
  all: match goal with |- context [readFile ?p] =>
         destruct (fileRead w p) as [data|e] eqn:E end.
  all: try (erewrite !bind_err by (rewrite readFile_run, E; reflexivity); reflexivity).
  all: try erewrite !bind_ok by (rewrite readFile_run, E; reflexivity).
  all: reflexivity.
Qed.

Lemma getContainerCpuUsage_reader v :
  reader (getContainerCpuUsage v) [ReadFile (CPU_FILE_PATHS.STAT v)].
Proof.
  apply (reader_intro _ _ (λ w, settled (getContainerCpuUsage v) w)).
  intros w st. unfold settled.
  destruct v; unfold getContainerCpuUsage.
  all: match goal with |- context [readFile ?p] =>
         destruct (fileRead w p) as [data|e] eqn:E end.
  all: try (erewrite !bind_err by (rewrite readFile_run, E; reflexivity); reflexivity).
  all: try erewrite !bind_ok by (rewrite readFile_run, E; reflexivity).
  all: reflexivity.
Qed.

Lemma scanCpuLine_reader lines : reader (scanCpuLine lines) [].
Proof.
  apply (reader_intro _ _ (λ w, settled (scanCpuLine lines) w)).
  intros w st. unfold settled.
  induction lines as [|line rest IH]; simpl; [reflexivity|].
  destruct (JS.startsWith _ _); [reflexivity | exact IH].
Qed.

Lemma getSystemCpuUsage_reader : reader getSystemCpuUsage [ReadFile PROC_STAT].
Proof.
  apply (reader_intro _ _ (λ w, settled getSystemCpuUsage w)).
  intros w st. unfold settled, getSystemCpuUsage.
  destruct (fileRead w PROC_STAT) as [data|e] eqn:E.
  - erewrite !bind_ok by (rewrite readFile_run, E; reflexivity).
    cbv beta zeta. rewrite !(scanCpuLine_reader _ w). reflexivity.
  - erewrite !bind_err by (rewrite readFile_run, E; reflexivity). reflexivity.
Qed.

Lemma sampleCpuUsage_reader v :
  reader (sampleCpuUsage v) [ReadFile (CPU_FILE_PATHS.STAT v); ReadFile PROC_STAT].
Proof.
  apply (reader_intro _ _ (λ w, settled (sampleCpuUsage v) w)).
  intros w st. unfold settled, sampleCpuUsage, mbind, async_bind, bind, promiseAll2.
  rewrite !(getContainerCpuUsage_reader v w), !(getSystemCpuUsage_reader w).
  cbn [completion final trace].
  destruct (settled (getContainerCpuUsage v) w), (settled getSystemCpuUsage w);
    reflexivity.
Qed.

Lemma getCgroupsVersion_run w st :
  getCgroupsVersion w st =
  mkOutcome (Ok (versionIn st w))
            (mkModuleState (Some (versionIn st w)) (previousSample st))
            (probe st).
Proof.
  unfold getCgroupsVersion, versionIn, probe, detect.
  erewrite bind_ok by reflexivity.
  destruct st as [[v|] prev]; cbn [_cgroupsVersion previousSample].
  - reflexivity.
  - erewrite bind_ok by reflexivity.
    rewrite prepend_prepend.
    destruct (inaccessible w !! CGROUP_MEMORY_DIR) as [e|] eqn:Hacc.
    + erewrite bind_ok
        by (erewrite tryCatch_err by (rewrite access_run, Hacc; reflexivity);
            reflexivity).
      reflexivity.
    + erewrite bind_ok
        by (erewrite tryCatch_ok by (rewrite access_run, Hacc; reflexivity);
            reflexivity).
      reflexivity.
Qed.

Lemma getCpuInfo_lambda w st :
  isLambdaEnvironment w = true →
  getCpuInfo w st = mkOutcome (settled getCurrentCpuTicks w) st [Cpus].
Proof.
  intros H. unfold getCpuInfo.
  erewrite bind_ok by reflexivity. cbv beta zeta. rewrite H.
  erewrite bind_ok by reflexivity. reflexivity.
Qed.

Lemma getCpuInfo_bareMetal w st :
  isLambdaEnvironment w = false → containerised w = false →
  getCpuInfo w st =
  mkOutcome (settled getCurrentCpuTicks w) st [IsContainerised; Cpus].
Proof.
  intros H Hc. unfold getCpuInfo.
  erewrite bind_ok by reflexivity. cbv beta zeta. rewrite H.
  erewrite bind_ok by (cbn [negb]; apply isContainerised_run).
  rewrite Hc. reflexivity.
Qed.

Lemma getCpuInfo_containerised w st :
  isLambdaEnvironment w = false → containerised w = true →
  getCpuInfo w st =
  let v := versionIn st w in
  let st1 := mkModuleState (Some v) (previousSample st) in
  let pre := IsContainerised :: probe st in
  let quotaFile := ReadFile (CPU_FILE_PATHS.QUOTA v) in
  let periodFile := ReadFile (CPU_FILE_PATHS.PERIOD v) in
  let statFile := ReadFile (CPU_FILE_PATHS.STAT v) in
  match settled (getCpuQuota v) w with
  | Err e => mkOutcome (Err e) st1 (pre ++ [quotaFile])
  | Ok None =>
      mkOutcome (settled getCurrentCpuTicks w) st1 (pre ++ [quotaFile; Cpus])
  | Ok (Some quota) =>
      match settled (getCpuPeriod v) w with
      | Err e => mkOutcome (Err e) st1 (pre ++ [quotaFile; periodFile])
      | Ok period =>
          match settled (sampleCpuUsage v) w with
          | Err e =>
              mkOutcome (Err e) st1
                (pre ++ [quotaFile; periodFile; statFile; ReadFile PROC_STAT])
          | Ok sample =>
              mkOutcome
                (Ok (quotaUsage (previousSample st) sample (length (cpus w))
                                quota period))
                (mkModuleState (Some v) sample)
                (pre ++ [quotaFile; periodFile; statFile; ReadFile PROC_STAT; Cpus])
          end
      end
  end.
Proof.
  intros H Hc. unfold getCpuInfo.
  erewrite bind_ok by reflexivity. cbv beta zeta. rewrite H.
  erewrite bind_ok by (cbn [negb]; apply isContainerised_run).
  rewrite Hc. cbv beta iota.
  erewrite bind_ok by apply getCgroupsVersion_run.
  set (v := versionIn st w). set (st1 := mkModuleState (Some v) (previousSample st)).
  rewrite !prepend_prepend.
  destruct (settled (getCpuQuota v) w) as [[quota|]|e] eqn:Eq.
  - erewrite bind_ok by (rewrite (getCpuQuota_reader v w st1), Eq; reflexivity).
    cbv beta iota.
    destruct (settled (getCpuPeriod v) w) as [period|e] eqn:Ep.
    + erewrite bind_ok by (rewrite (getCpuPeriod_reader v w st1), Ep; reflexivity).
      cbv beta zeta.
      destruct (settled (sampleCpuUsage v) w) as [sample|e] eqn:Es.
      * erewrite bind_ok by (rewrite (sampleCpuUsage_reader v w st1), Es; reflexivity).
        erewrite bind_ok by reflexivity. cbv beta zeta.
        erewrite bind_ok by reflexivity.
        erewrite bind_ok by reflexivity.
        unfold quotaUsage. settle.
      * erewrite bind_err by (rewrite (sampleCpuUsage_reader v w st1), Es; reflexivity).
        settle.
    + erewrite bind_err by (rewrite (getCpuPeriod_reader v w st1), Ep; reflexivity).
      settle.
  - erewrite bind_ok by (rewrite (getCpuQuota_reader v w st1), Eq; reflexivity).
    cbv beta iota. rewrite (getCurrentCpuTicks_reader w st1).
    settle.
  - erewrite bind_err by (rewrite (getCpuQuota_reader v w st1), Eq; reflexivity).
    settle.
Qed.

(* ===================================================================== *)
(** * The built-ins on the contents of the pseudo-files *)
(* ===================================================================== *)

Example trim_split_examples :
  JS.trim ("  200000 100000" +:+ newline) = "200000 100000"
  ∧ JS.splitWs "max 100000" = ["max"; "100000"]
  ∧ JS.splitWs "cpu  1 2" = ["cpu"; "1"; "2"]
  ∧ JS.splitWs "" = [""]
  ∧ JS.splitWs " a " = [""; "a"; ""]
  ∧ JS.split "010" ("a" +:+ newline +:+ "b" +:+ newline) = ["a"; "b"; ""]
  ∧ JS.slice 1 8 (JS.splitWs "cpu  1 2 3 4 5 6 7 8 9 10")
    = ["1"; "2"; "3"; "4"; "5"; "6"; "7"]
  ∧ JS.startsWith "cpu " "cpu0 1 2" = false.
Proof. vm_compute. repeat split. Qed.

Example parseInt_examples :
  (JS.parseInt (Some "200000") = 200000
   ∧ JS.parseInt (Some "-1") = -1
   ∧ JS.parseInt (Some " 42px") = 42
   ∧ JS.parseInt (Some "1.5") = 1
   ∧ JS.parseInt (Some "-0") = -0
   ∧ JS.parseInt (Some "max") = nan
   ∧ JS.parseInt (Some "") = nan
   ∧ JS.parseInt None = nan)%float.
Proof. vm_compute. repeat split. Qed.

Example Number_examples :
  (JS.Number (Some "1000000000") = 1000000000
   ∧ JS.Number (Some "") = 0
   ∧ JS.Number (Some "  12  ") = 12
   ∧ JS.Number (Some "-0") = -0
   ∧ JS.Number (Some "1.5e3") = 1500
   ∧ JS.Number (Some ".5") = 0.5
   ∧ JS.Number (Some "0x1F") = 31
   ∧ JS.Number (Some "9007199254740993") = 9007199254740992
   ∧ JS.Number (Some "1e400") = infinity
   ∧ JS.Number (Some "-Infinity") = neg_infinity
   ∧ JS.Number (Some "12px") = nan
   ∧ JS.Number (Some "1e") = nan
   ∧ JS.Number (Some ".") = nan
   ∧ JS.Number None = nan)%float.
Proof. vm_compute. repeat split. Qed.

(* ===================================================================== *)
(** * Control-group version detection *)
(* ===================================================================== *)

(** The two scenarios of the test-suite: [access] resolves, [access]
    rejects with [new Error('Not found')]. *)
Example getCgroupsVersion_test_V1 :
  completion (getCgroupsVersion (bareMetal []) initialState) = Ok V1.
Proof. reflexivity. Qed.

Example getCgroupsVersion_test_V2 :
  completion
    (getCgroupsVersion
       {| platform := "linux"; env := ∅; containerised := false;
          inaccessible := {[ CGROUP_MEMORY_DIR := Error "Not found" ]};
          files := ∅; cpus := []; now := 0;
          memoryInfo := inr (mkMemoryInfo 0 0) |}
       initialState) = Ok V2.
Proof. vm_compute. reflexivity. Qed.

(** C6: in a module that has not detected the version yet,
    [getCgroupsVersion] returns V1 exactly when [access] to the V1
    memory-accounting path resolves and V2 exactly when it rejects,
    whatever the rejection; it probes the path once.  A later call, in any
    world, returns the same version, leaves the module as it is and issues
    no call at all. *)
Theorem getCgroupsVersion_memoized (w w' : World) (st : ModuleState) :
  _cgroupsVersion st = None →
  let first := getCgroupsVersion w st in
  let second := getCgroupsVersion w' (final first) in
  (completion first = Ok V1
   ↔ completion (access CGROUP_MEMORY_DIR w st) = Ok ()) ∧
  (completion first = Ok V2
   ↔ ∃ e, completion (access CGROUP_MEMORY_DIR w st) = Err e) ∧
  trace first = [Access CGROUP_MEMORY_DIR] ∧
  second = mkOutcome (completion first) (final first) [].
Proof.
  intros Hnone first second. subst first second.
  rewrite !getCgroupsVersion_run, access_run.
  unfold versionIn, probe, detect. rewrite Hnone.
  cbn [completion final trace _cgroupsVersion].
  destruct (inaccessible w !! CGROUP_MEMORY_DIR) as [e|];
    repeat split; try discriminate; eauto;
    intros [? ?]; discriminate.
Qed.

Lemma getCgroupsVersion_memoized_witness :
  getCgroupsVersion (bareMetal [])
    (final (getCgroupsVersion (cgroupV2 "max 100000" "" "" []) initialState))
  = mkOutcome (Ok V2) (mkModuleState (Some V2) (mkCpuSample 0 0)) [].
Proof.
  pose proof (getCgroupsVersion_memoized
                (cgroupV2 "max 100000" "" "" []) (bareMetal []) initialState
                eq_refl) as (_ & _ & _ & H).
  exact H.
Defined.

(* ===================================================================== *)
(** * Host-wide tick accounting *)
(* ===================================================================== *)

(** What [getCurrentCpuTicks] returns: since [previousTicks] is never
    assigned, the two "deltas" are the tick sums themselves. *)
Lemma getCurrentCpuTicks_run (w : World) (st : ModuleState) :
  getCurrentCpuTicks w st =
  mkOutcome
    (Ok (let ticks := sumTicks (cpus w) in
         if JS.truthy (ticks_total ticks - 0)
         then (1 - (ticks_idle ticks - 0) / (ticks_total ticks - 0))%float
         else 0%float))
    st [Cpus].
Proof. reflexivity. Qed.

(** C2 (defect in the code): the value returned by [getCurrentCpuTicks]
    is computed from the tick sums of the current call alone, against the
    constant [previousTicks = {idle: 0, total: 0}], whatever was observed
    at the call before.  On two cores that were ten percent busy at the
    first call and never idle between the calls, the second call returns
    [1 − 900/2000], not [1 − 0/1000 = 1]; and a call that observes
    the same sums as the call before it, a total-tick delta of zero,
    returns [1 − 900/1000], not [0]. *)
Theorem getCurrentCpuTicks_since_boot :
  (∀ w st st', completion (getCurrentCpuTicks w st)
               = completion (getCurrentCpuTicks w st')
               ∧ final (getCurrentCpuTicks w st) = st) ∧
  (let first := getCurrentCpuTicks (bareMetal ticksAtFirstCall) initialState in
   let second := getCurrentCpuTicks (bareMetal ticksAtSecondCall) (final first) in
   let again := getCurrentCpuTicks (bareMetal ticksAtFirstCall) (final first) in
   sumTicks ticksAtFirstCall = mkTicks 900 1000 ∧
   sumTicks ticksAtSecondCall = mkTicks 900 2000 ∧
   (1 - (900 - 900) / (2000 - 1000))%float = 1%float ∧
   completion second = Ok (1 - 900 / 2000)%float ∧
   completion second ≠ Ok 1%float ∧
   completion again = Ok (1 - 900 / 1000)%float ∧
   completion again ≠ Ok 0%float).
Proof.
  split.
  - intros w st st'. split; reflexivity.
  - vm_compute. repeat split; discriminate.
Qed.

(* ===================================================================== *)
(** * The scale of the sampler's result *)
(* ===================================================================== *)

(** C1 (defect in the code): in scenario B the container spends one
    second of CPU time while four cores spend four, and it is entitled to
    two cores: it consumes half of its capacity.  The containerised branch
    of [getCpuInfo] returns 50, on a percentage scale, where the host-tick
    branch returns 0.5 for cores that are busy half of the time.
    [createCpuInfo] multiplies both by 100 and compares both with
    [maxUsedCpuRatio]: the container reports a usage of 5000 and is
    overloaded for every threshold below 50. *)
Theorem getCpuInfo_container_scale :
  let first := getCpuInfo scenarioB_first initialState in
  let second := getCpuInfo scenarioB_second (final first) in
  let info :=
    LocalEventManager.createCpuInfo 0.75 scenarioB_second (final first) in
  let host := bareMetal (cores 4 halfBusyCore) in
  let hostInfo := LocalEventManager.createCpuInfo 0.75 host initialState in
  completion second = Ok 50%float ∧
  field "cpuCurrentUsage" info = Some (VNumber 5000) ∧
  field "isCpuOverloaded" info = Some (VBoolean true) ∧
  completion (getCpuInfo host initialState) = Ok 0.5%float ∧
  field "cpuCurrentUsage" hostInfo = Some (VNumber 50) ∧
  field "isCpuOverloaded" hostInfo = Some (VBoolean false).
Proof. cbv zeta. repeat split; vm_compute; reflexivity. Qed.

(* ===================================================================== *)
(** * The CPU sampler in a container with a finite quota *)
(* ===================================================================== *)

(** C4: two consecutive calls of [getCpuInfo] in a container whose quota
    is finite.  Each call computes the container and system deltas against
    the sample stored by the call before it, stores its own sample, and
    returns [(containerDelta / systemDelta) × numberOfCores × 100 /
    (quota / period)]; with an allowance [quota / period] of 2 the second
    call returns [(containerDelta / systemDelta) × numCpus × 100 / 2]. *)
Theorem getCpuInfo_finite_quota (w1 w2 : World) (st : ModuleState)
    (v : CgroupsVersion) (quota1 period1 quota2 period2 : float)
    (sample1 sample2 : CpuSample) :
  isLambdaEnvironment w1 = false → containerised w1 = true →
  isLambdaEnvironment w2 = false → containerised w2 = true →
  completion (getCgroupsVersion w1 st) = Ok v →
  completion (getCpuQuota v w1 st) = Ok (Some quota1) →
  completion (getCpuPeriod v w1 st) = Ok period1 →
  completion (sampleCpuUsage v w1 st) = Ok sample1 →
  let first := getCpuInfo w1 st in
  completion (getCpuQuota v w2 (final first)) = Ok (Some quota2) →
  completion (getCpuPeriod v w2 (final first)) = Ok period2 →
  completion (sampleCpuUsage v w2 (final first)) = Ok sample2 →
  let second := getCpuInfo w2 (final first) in
  let numberOfCores w := JS.ofZ (Z.of_nat (length (cpus w))) in
  let containerDelta sample previous :=
    (containerUsage sample - containerUsage previous)%float in
  let systemDelta sample previous :=
    (systemUsage sample - systemUsage previous)%float in
  completion first =
    Ok ((containerDelta sample1 (previousSample st)
         / systemDelta sample1 (previousSample st))
        * numberOfCores w1 * 100 / (quota1 / period1))%float ∧
  previousSample (final first) = sample1 ∧
  completion second =
    Ok ((containerDelta sample2 sample1 / systemDelta sample2 sample1)
        * numberOfCores w2 * 100 / (quota2 / period2))%float ∧
  previousSample (final second) = sample2 ∧
  ((quota2 / period2)%float = 2%float →
   completion second =
     Ok ((containerDelta sample2 sample1 / systemDelta sample2 sample1)
         * numberOfCores w2 * 100 / 2)%float).
Proof.
  intros Hl1 Hc1 Hl2 Hc2 Hv Hq1 Hp1 Hs1 first.
  rewrite getCgroupsVersion_run in Hv. injection Hv as Hv.
  rewrite (reader_completion _ _ _ _ (getCpuQuota_reader v)) in Hq1.
  rewrite (reader_completion _ _ _ _ (getCpuPeriod_reader v)) in Hp1.
  rewrite (reader_completion _ _ _ _ (sampleCpuUsage_reader v)) in Hs1.
  assert (Hfirst : first =
    mkOutcome (Ok (quotaUsage (previousSample st) sample1 (length (cpus w1))
                               quota1 period1))
              (mkModuleState (Some v) sample1)
              ((IsContainerised :: probe st)
               ++ [ReadFile (CPU_FILE_PATHS.QUOTA v);
                   ReadFile (CPU_FILE_PATHS.PERIOD v);
                   ReadFile (CPU_FILE_PATHS.STAT v); ReadFile PROC_STAT; Cpus])).
  { subst first. rewrite (getCpuInfo_containerised w1 st Hl1 Hc1).
    cbv zeta. rewrite Hv, Hq1, Hp1, Hs1. reflexivity. }
  rewrite Hfirst. intros Hq2 Hp2 Hs2 second.
  cbn [final completion previousSample] in *.
  rewrite (reader_completion _ _ _ _ (getCpuQuota_reader v)) in Hq2.
  rewrite (reader_completion _ _ _ _ (getCpuPeriod_reader v)) in Hp2.
  rewrite (reader_completion _ _ _ _ (sampleCpuUsage_reader v)) in Hs2.
  assert (Hsecond : completion second =
            Ok (quotaUsage sample1 sample2 (length (cpus w2)) quota2 period2)
          ∧ previousSample (final second) = sample2).
  { subst second. rewrite (getCpuInfo_containerised w2 _ Hl2 Hc2).
    cbv zeta. unfold versionIn. cbn [_cgroupsVersion previousSample].
    rewrite Hq2, Hp2, Hs2. split; reflexivity. }
  destruct Hsecond as [Hc Hf]. rewrite Hc, Hf.
  unfold quotaUsage. repeat split.
  intros ->. reflexivity.
Qed.

Lemma getCpuInfo_finite_quota_witness :
  completion (getCpuInfo scenarioB_second
                (final (getCpuInfo scenarioB_first initialState)))
  = Ok 50%float.
Proof.
  refine (proj2 (proj2 (proj2 (proj2
    (getCpuInfo_finite_quota scenarioB_first scenarioB_second initialState V1
       200000 100000 200000 100000
       (mkCpuSample 1000000000 4000000000) (mkCpuSample 2000000000 8000000000)
       _ _ _ _ _ _ _ _ _ _ _)))) _);
    vm_compute; reflexivity.
Defined.

(* ===================================================================== *)
(** * Unlimited quota: the fall-back to host ticks *)
(* ===================================================================== *)

Lemma getCpuQuota_settled (v : CgroupsVersion) (w : World) (data : string) :
  fileRead w (CPU_FILE_PATHS.QUOTA v) = Ok data →
  (unlimitedMarker v data → settled (getCpuQuota v) w = Ok None) ∧
  (¬ unlimitedMarker v data →
   settled (getCpuQuota v) w = Ok (Some (quotaField v data))).
Proof.
  intros Hread. unfold settled, unlimitedMarker, quotaField.
  destruct v; unfold getCpuQuota;
    (erewrite bind_ok by (rewrite readFile_run, Hread; reflexivity));
    cbv zeta.
  - destruct (JS.strictEq _ _); split; intros H; try reflexivity;
      try discriminate; exfalso; apply H; reflexivity.
  - case_bool_decide as Hmax; split; intros H; try reflexivity;
      contradiction.
Qed.

(** C5: on a containerised host (not the serverless sandbox),
    [getCpuQuota] answers [null] exactly when the V1 quota file holds [-1]
    or the first field of the V2 quota file is [max], and any other
    content gives the parsed quota.  When the answer is [null],
    [getCpuInfo] returns what [getCurrentCpuTicks] returns: after the
    quota file it only calls [os.cpus()], so neither the period nor the
    usage files are read, and the stored sample is left alone.  When the
    answer is a number, the period file is read next and a result, if
    there is one, is the allowance formula on that quota. *)
Theorem getCpuInfo_unlimited_quota (w : World) (st : ModuleState)
    (v : CgroupsVersion) :
  isLambdaEnvironment w = false → containerised w = true →
  completion (getCgroupsVersion w st) = Ok v →
  let o := getCpuInfo w st in
  let pre := IsContainerised :: trace (getCgroupsVersion w st) in
  let quotaFile := ReadFile (CPU_FILE_PATHS.QUOTA v) in
  let periodFile := ReadFile (CPU_FILE_PATHS.PERIOD v) in
  (∀ data, completion (readFile (CPU_FILE_PATHS.QUOTA v) w st) = Ok data →
     (unlimitedMarker v data → completion (getCpuQuota v w st) = Ok None) ∧
     (¬ unlimitedMarker v data →
      completion (getCpuQuota v w st) = Ok (Some (quotaField v data)))) ∧
  (completion (getCpuQuota v w st) = Ok None →
     completion o = completion (getCurrentCpuTicks w st) ∧
     trace o = pre ++ [quotaFile; Cpus] ∧
     previousSample (final o) = previousSample st) ∧
  (∀ quota, completion (getCpuQuota v w st) = Ok (Some quota) →
     (∃ rest, trace o = pre ++ [quotaFile; periodFile] ++ rest) ∧
     (∀ x, completion o = Ok x →
        ∃ period sample,
          completion (getCpuPeriod v w st) = Ok period ∧
          completion (sampleCpuUsage v w st) = Ok sample ∧
          x = quotaUsage (previousSample st) sample (length (cpus w))
                         quota period)).
Proof.
  intros Hl Hc Hv o pre quotaFile periodFile. subst o pre quotaFile periodFile.
  rewrite getCgroupsVersion_run in Hv |- *. injection Hv as Hv.
  rewrite (getCpuInfo_containerised w st Hl Hc). cbv zeta. rewrite Hv.
  rewrite !(reader_completion _ _ _ _ (getCpuQuota_reader v)).
  rewrite !(reader_completion _ _ _ _ (getCpuPeriod_reader v)).
  rewrite !(reader_completion _ _ _ _ (sampleCpuUsage_reader v)).
  rewrite !(reader_completion _ _ _ _ getCurrentCpuTicks_reader).
  rewrite readFile_run. cbn [completion final trace].
  split; [|split].
  - intros data Hread. apply getCpuQuota_settled. exact Hread.
  - intros ->. repeat split.
  - intros quota ->.
    destruct (settled (getCpuPeriod v) w) as [period|e];
      [destruct (settled (sampleCpuUsage v) w) as [sample|e]|];
      cbn [completion final trace]; (split; [eexists; reflexivity|]);
      intros x Hx; try discriminate.
    injection Hx as <-. eauto.
Qed.

Lemma getCpuInfo_unlimited_quota_witness :
  completion (getCpuInfo scenarioA initialState)
  = completion (getCurrentCpuTicks scenarioA initialState)
  ∧ trace (getCpuInfo scenarioA initialState)
    = [IsContainerised; Access CGROUP_MEMORY_DIR;
       ReadFile (CPU_FILE_PATHS.QUOTA V2); Cpus]
  ∧ previousSample (final (getCpuInfo scenarioA initialState))
    = previousSample initialState.
Proof.
  refine (proj1 (proj2
    (getCpuInfo_unlimited_quota scenarioA initialState V2 _ _ _)) _);
    vm_compute; reflexivity.
Defined.

(* ===================================================================== *)
(** * Who writes [previousSample] *)
(* ===================================================================== *)

Lemma previousSample_other_call (w : World) (st : ModuleState) :
  branchOf w st ≠ Some FiniteQuota →
  previousSample (final (getCpuInfo w st)) = previousSample st.
Proof.
  unfold branchOf. intros Hb.
  destruct (isLambdaEnvironment w) eqn:Hl.
  { rewrite getCpuInfo_lambda by assumption. reflexivity. }
  destruct (containerised w) eqn:Hc.
  2: { rewrite getCpuInfo_bareMetal by assumption. reflexivity. }
  rewrite getCgroupsVersion_run in Hb. cbn [completion] in Hb.
  rewrite (reader_completion _ _ _ _ (getCpuQuota_reader _)) in Hb.
  rewrite getCpuInfo_containerised by assumption. cbv zeta.
  destruct (settled (getCpuQuota (versionIn st w)) w) as [[quota|]|e];
    [contradiction | reflexivity | reflexivity].
Qed.

Lemma previousSample_finite_call (w : World) (st : ModuleState)
    (v : CgroupsVersion) (period : float) (sample : CpuSample) :
  branchOf w st = Some FiniteQuota →
  completion (getCgroupsVersion w st) = Ok v →
  completion (getCpuPeriod v w st) = Ok period →
  completion (sampleCpuUsage v w st) = Ok sample →
  ∃ quota,
    completion (getCpuQuota v w st) = Ok (Some quota) ∧
    getCpuInfo w st =
    mkOutcome (Ok (quotaUsage (previousSample st) sample (length (cpus w))
                              quota period))
              (mkModuleState (Some v) sample)
              (IsContainerised :: trace (getCgroupsVersion w st)
               ++ [ReadFile (CPU_FILE_PATHS.QUOTA v);
                   ReadFile (CPU_FILE_PATHS.PERIOD v);
                   ReadFile (CPU_FILE_PATHS.STAT v); ReadFile PROC_STAT; Cpus]).
Proof.
  unfold branchOf. intros Hb Hv Hp Hs.
  destruct (isLambdaEnvironment w) eqn:Hl; [discriminate|].
  destruct (containerised w) eqn:Hc; [|discriminate].
  rewrite getCgroupsVersion_run in Hb, Hv |- *. cbn [completion trace] in *.
  injection Hv as Hv. rewrite Hv in *.
  rewrite (reader_completion _ _ _ _ (getCpuQuota_reader _)) in Hb |- *.
  rewrite (reader_completion _ _ _ _ (getCpuPeriod_reader _)) in Hp.
  rewrite (reader_completion _ _ _ _ (sampleCpuUsage_reader _)) in Hs.
  rewrite getCpuInfo_containerised by assumption. cbv zeta.
  rewrite Hv, Hp, Hs.
  destruct (settled (getCpuQuota v) w) as [[quota|]|e]; try discriminate.
  exists quota. split; reflexivity.
Qed.

Lemma previousSample_failed_call (w : World) (st : ModuleState) (e : Exn) :
  completion (getCpuInfo w st) = Err e →
  previousSample (final (getCpuInfo w st)) = previousSample st.
Proof.
  destruct (isLambdaEnvironment w) eqn:Hl.
  { rewrite getCpuInfo_lambda by assumption. reflexivity. }
  destruct (containerised w) eqn:Hc.
  2: { rewrite getCpuInfo_bareMetal by assumption. reflexivity. }
  rewrite getCpuInfo_containerised by assumption. cbv zeta.
  destruct (settled (getCpuQuota _) w) as [[quota|]|e1];
    [destruct (settled (getCpuPeriod _) w) as [period|e2];
     [destruct (settled (sampleCpuUsage _) w) as [sample|e3]|]| |];
    cbn [completion final previousSample]; intros H;
    try reflexivity; discriminate.
Qed.

(** C10: [previousSample] is written by the calls of [getCpuInfo] that go
    through the containerised finite-quota branch, which store the sample
    they took; a call through the serverless, bare-metal or
    unlimited-quota branch, and a call that is rejected, leaves it as it
    was.  So it keeps its value, the zero sample in a fresh module, over
    any run of such calls, and the finite-quota call that follows the run
    computes its deltas against the sample of the last finite-quota call
    before the run. *)
Theorem previousSample_frame :
  (∀ w st, branchOf w st ≠ Some FiniteQuota →
     previousSample (final (getCpuInfo w st)) = previousSample st) ∧
  (∀ w st v period sample,
     branchOf w st = Some FiniteQuota →
     completion (getCgroupsVersion w st) = Ok v →
     completion (getCpuPeriod v w st) = Ok period →
     completion (sampleCpuUsage v w st) = Ok sample →
     previousSample (final (getCpuInfo w st)) = sample) ∧
  (∀ w st e, completion (getCpuInfo w st) = Err e →
     previousSample (final (getCpuInfo w st)) = previousSample st) ∧
  (∀ st ws st', otherCalls st ws st' →
     previousSample st' = previousSample st) ∧
  (∀ ws st', otherCalls initialState ws st' →
     previousSample st' = mkCpuSample 0 0) ∧
  (∀ st ws st' w v quota period sample,
     otherCalls st ws st' →
     branchOf w st' = Some FiniteQuota →
     completion (getCgroupsVersion w st') = Ok v →
     completion (getCpuQuota v w st') = Ok (Some quota) →
     completion (getCpuPeriod v w st') = Ok period →
     completion (sampleCpuUsage v w st') = Ok sample →
     completion (getCpuInfo w st') =
       Ok ((containerUsage sample - containerUsage (previousSample st))
           / (systemUsage sample - systemUsage (previousSample st))
           * JS.ofZ (Z.of_nat (length (cpus w))) * 100
           / (quota / period))%float).
Proof.
  assert (Hrun : ∀ st ws st', otherCalls st ws st' →
                 previousSample st' = previousSample st).
  { intros st ws st' H. induction H as [st|st w ws st' Hb _ IH].
    - reflexivity.
    - rewrite IH. apply previousSample_other_call. exact Hb. }
  split; [exact previousSample_other_call|].
  split.
  { intros w st v period sample Hb Hv Hp Hs.
    destruct (previousSample_finite_call w st v period sample Hb Hv Hp Hs)
      as (quota & _ & ->).
    reflexivity. }
  split; [exact previousSample_failed_call|].
  split; [exact Hrun|].
  split; [intros ws st' H; apply (Hrun _ _ _ H)|].
  intros st ws st' w v quota period sample Hcalls Hb Hv Hq Hp Hs.
  destruct (previousSample_finite_call w st' v period sample Hb Hv Hp Hs)
    as (quota' & Hq' & ->).
  rewrite Hq in Hq'. injection Hq' as <-.
  rewrite (Hrun _ _ _ Hcalls). reflexivity.
Qed.

Lemma previousSample_frame_witness :
  let st1 := final (getCpuInfo scenarioB_first initialState) in
  let st2 := final (getCpuInfo scenarioB_unlimited st1) in
  let st3 := final (getCpuInfo (bareMetal (cores 4 idleCore)) st2) in
  previousSample st3 = mkCpuSample 1000000000 4000000000
  ∧ completion (getCpuInfo scenarioB_second st3) = Ok 50%float.
Proof.
  intros st1 st2 st3.
  assert (Hcalls : otherCalls st1
                     [scenarioB_unlimited; bareMetal (cores 4 idleCore)] st3).
  { apply otherCalls_cons; [vm_compute; discriminate|].
    apply otherCalls_cons; [vm_compute; discriminate|].
    apply otherCalls_nil. }
  destruct previousSample_frame as (_ & _ & _ & Hkeep & _ & Hnext).
  split.
  - rewrite (Hkeep _ _ _ Hcalls). vm_compute. reflexivity.
  - rewrite (Hnext st1 _ st3 scenarioB_second V1 200000%float 100000%float
               (mkCpuSample 2000000000 8000000000) Hcalls);
      vm_compute; reflexivity.
Defined.

(* ===================================================================== *)
(** * Failures of the sampler in a container *)
(* ===================================================================== *)

Lemma getCpuQuota_unreadable v w e :
  fileRead w (CPU_FILE_PATHS.QUOTA v) = Err e →
  settled (getCpuQuota v) w = Err e.
Proof.
  intros H. unfold settled.
  destruct v; unfold getCpuQuota;
    erewrite bind_err by (rewrite readFile_run, H; reflexivity); reflexivity.
Qed.

Lemma getCpuPeriod_settled v w :
  match fileRead w (CPU_FILE_PATHS.PERIOD v) with
  | Err e => settled (getCpuPeriod v) w = Err e
  | Ok _ => ∃ period, settled (getCpuPeriod v) w = Ok period
  end.
Proof.
  unfold settled.
  destruct (fileRead w (CPU_FILE_PATHS.PERIOD v)) as [data|e] eqn:H;
    destruct v; unfold getCpuPeriod.
  all: try (erewrite bind_ok by (rewrite readFile_run, H; reflexivity);
            eexists; reflexivity).
  all: erewrite bind_err by (rewrite readFile_run, H; reflexivity); reflexivity.
Qed.

Lemma getContainerCpuUsage_settled v w :
  match fileRead w (CPU_FILE_PATHS.STAT v) with
  | Err e => settled (getContainerCpuUsage v) w = Err e
  | Ok _ => ∃ usage, settled (getContainerCpuUsage v) w = Ok usage
  end.
Proof.
  unfold settled.
  destruct (fileRead w (CPU_FILE_PATHS.STAT v)) as [data|e] eqn:H;
    destruct v; unfold getContainerCpuUsage.
  all: try (erewrite bind_ok by (rewrite readFile_run, H; reflexivity);
            eexists; reflexivity).
  all: erewrite bind_err by (rewrite readFile_run, H; reflexivity); reflexivity.
Qed.

Lemma scanCpuLine_settled lines w :
  if existsb (JS.startsWith "cpu ") lines
  then ∃ usage, settled (scanCpuLine lines) w = Ok usage
  else settled (scanCpuLine lines) w = Err (Error "no cpu line").
Proof.
  unfold settled. induction lines as [|line rest IH]; cbn [existsb scanCpuLine].
  - reflexivity.
  - destruct (JS.startsWith "cpu " line); cbn [orb].
    + eexists. reflexivity.
    + exact IH.
Qed.

Lemma getSystemCpuUsage_settled w :
  match fileRead w PROC_STAT with
  | Err e => settled getSystemCpuUsage w = Err e
  | Ok statData =>
      if hasCpuLine statData
      then ∃ usage, settled getSystemCpuUsage w = Ok usage
      else settled getSystemCpuUsage w = Err (Error "no cpu line")
  end.
Proof.
  destruct (fileRead w PROC_STAT) as [data|e] eqn:H.
  - pose proof (scanCpuLine_settled (JS.split "010" data) w) as Hscan.
    unfold hasCpuLine. unfold settled, getSystemCpuUsage in *.
    erewrite bind_ok by (rewrite readFile_run, H; reflexivity).
    cbv zeta. unfold prepend. cbn [completion]. exact Hscan.
  - unfold settled, getSystemCpuUsage.
    erewrite bind_err by (rewrite readFile_run, H; reflexivity). reflexivity.
Qed.

Lemma sampleCpuUsage_settled v w :
  settled (sampleCpuUsage v) w =
  match settled (getContainerCpuUsage v) w, settled getSystemCpuUsage w with
  | Ok containerUsage, Ok systemUsage =>
      Ok (mkCpuSample containerUsage systemUsage)
  | Err e, _ => Err e
  | _, Err e => Err e
  end.
Proof.
  unfold settled at 1. unfold sampleCpuUsage, mbind, async_bind, bind, promiseAll2.
  rewrite !(getContainerCpuUsage_reader v w), !(getSystemCpuUsage_reader w).
  cbn [completion final trace].
  destruct (settled (getContainerCpuUsage v) w), (settled getSystemCpuUsage w);
    reflexivity.
Qed.

(** The claim that every parse failure makes the sampler call fail does
    not hold: a usage file that holds [n/a] is read, [Number] turns it
    into NaN, and the call completes, with NaN. *)
Lemma getCpuInfo_parse_failure_completes :
  JS.isNaN (JS.Number (Some (JS.trim ("n/a" +:+ newline)))) = true
  ∧ completion (getContainerCpuUsage V1 garbledUsage initialState) = Ok nan
  ∧ completion (getCpuInfo garbledUsage initialState) = Ok nan.
Proof. vm_compute. repeat split. Qed.

(** The V2 usage reader returns zero when [cpu.stat] has no [usage_usec]
    line, where its sibling [getSystemCpuUsage] throws on a missing line. *)
Remark getContainerCpuUsage_without_usage_usec :
  hasUsageUsec ("user_usec 700" +:+ newline +:+ "system_usec 300" +:+ newline)
  = false
  ∧ completion (getContainerCpuUsage V2 noUsageUsec initialState) = Ok 0%float
  ∧ ∃ x, completion (getCpuInfo noUsageUsec initialState) = Ok x.
Proof. vm_compute. repeat split. eexists. reflexivity. Qed.

(** C3, amended: in the containerised branch a rejected read of the
    quota, period, usage or system-wide stat file makes [getCpuInfo] fail
    with the rejection (with one of the two when both reads of
    [Promise.all] are rejected), and a system-wide stat file without an
    aggregate [cpu] line makes it fail with the error [no cpu line].  A
    value that is read but does not parse as a number is no failure: when
    the files are read, the stat file has its aggregate line and (under
    V2) [cpu.stat] has its [usage_usec] line, the call completes. *)
Theorem getCpuInfo_failures (w : World) (st : ModuleState) (v : CgroupsVersion) :
  isLambdaEnvironment w = false → containerised w = true →
  completion (getCgroupsVersion w st) = Ok v →
  let o := getCpuInfo w st in
  let read path := completion (readFile path w st) in
  (∀ e, read (CPU_FILE_PATHS.QUOTA v) = Err e → completion o = Err e) ∧
  (∀ quota, completion (getCpuQuota v w st) = Ok (Some quota) →
     (∀ e, read (CPU_FILE_PATHS.PERIOD v) = Err e → completion o = Err e) ∧
     (∀ periodData, read (CPU_FILE_PATHS.PERIOD v) = Ok periodData →
        (∀ e, read (CPU_FILE_PATHS.STAT v) = Err e →
           ∃ e', completion o = Err e') ∧
        (∀ usageData, read (CPU_FILE_PATHS.STAT v) = Ok usageData →
           (∀ e, read PROC_STAT = Err e → completion o = Err e) ∧
           (∀ statData, read PROC_STAT = Ok statData →
              (hasCpuLine statData = false →
               completion o = Err (Error "no cpu line")) ∧
              (hasCpuLine statData = true →
               (v = V2 → hasUsageUsec usageData = true) →
               ∃ x, completion o = Ok x))))).
Proof.
  intros Hl Hc Hv o read. subst o read.
  rewrite getCgroupsVersion_run in Hv. injection Hv as Hv.
  rewrite (getCpuInfo_containerised w st Hl Hc). cbv zeta. rewrite Hv.
  rewrite !(reader_completion _ _ _ _ (getCpuQuota_reader v)).
  setoid_rewrite readFile_run. cbn [completion].
  split.
  { intros e He. rewrite (getCpuQuota_unreadable v w e He). reflexivity. }
  intros quota ->.
  pose proof (getCpuPeriod_settled v w) as Hperiod.
  split.
  { intros e He. rewrite He in Hperiod. rewrite Hperiod. reflexivity. }
  intros periodData Hpd. rewrite Hpd in Hperiod.
  destruct Hperiod as [period ->].
  rewrite sampleCpuUsage_settled.
  pose proof (getContainerCpuUsage_settled v w) as Husage.
  split.
  { intros e He. rewrite He in Husage. rewrite Husage. eexists. reflexivity. }
  intros usageData Hud. rewrite Hud in Husage.
  destruct Husage as [usage ->].
  pose proof (getSystemCpuUsage_settled w) as Hsys.
  split.
  { intros e He. rewrite He in Hsys. rewrite Hsys. reflexivity. }
  intros statData Hsd. rewrite Hsd in Hsys.
  split.
  - intros Hline. rewrite Hline in Hsys. rewrite Hsys. reflexivity.
  - intros Hline _. rewrite Hline in Hsys. destruct Hsys as [sys ->].
    eexists. reflexivity.
Qed.

Lemma getCpuInfo_failures_witness :
  completion (getCpuInfo noAggregateLine initialState)
  = Err (Error "no cpu line").
Proof.
  pose proof (getCpuInfo_failures noAggregateLine initialState V1
                eq_refl eq_refl eq_refl) as (_ & H).
  destruct (H 200000%float eq_refl) as (_ & Hp).
  destruct (Hp ("100000" +:+ newline) eq_refl) as (_ & Hu).
  destruct (Hu ("1000000000" +:+ newline) eq_refl) as (_ & Hs).
  destruct (Hs ("cpu0 25 0 25 50 0 0 0 0 0 0" +:+ newline) eq_refl) as (Hline & _).
  exact (Hline eq_refl).
Defined.

(* ===================================================================== *)
(** * The aggregator: one tick *)
(* ===================================================================== *)

Lemma createCpuInfo_run (ratio : float) (w : World) (st : ModuleState) :
  LocalEventManager.createCpuInfo ratio w st =
  let sampler := getCpuInfo w st in
  match completion sampler with
  | Ok usedCpuRatio =>
      mkOutcome
        (Ok (<["cpuCurrentUsage" := VNumber (usedCpuRatio * 100)%float]>
             (<["isCpuOverloaded" := VBoolean (ratio <? usedCpuRatio)%float]> ∅)))
        (final sampler) (trace sampler)
  | Err e =>
      mkOutcome (Ok ∅) (final sampler)
                (trace sampler ++ [LogException e "Cpu snapshot failed."])
  end.
Proof.
  unfold LocalEventManager.createCpuInfo, LocalEventManager._getCpuInfo.
  cbv zeta. destruct (getCpuInfo w st) as [[x|e] st' tr] eqn:H;
    cbn [completion final trace].
  - erewrite tryCatch_ok by (erewrite bind_ok by exact H; settle).
    rewrite app_nil_r. reflexivity.
  - erewrite tryCatch_err by (erewrite bind_err by exact H; reflexivity).
    unfold LocalEventManager.log_exception.
    erewrite bind_ok by reflexivity. settle.
Qed.

Lemma createMemoryInfo_run (w : World) (st : ModuleState) :
  LocalEventManager.createMemoryInfo w st =
  match memoryInfo w with
  | inr memInfo =>
      mkOutcome
        (Ok (<["memCurrentBytes" :=
                 VNumber (mainProcessBytes memInfo
                          + childProcessesBytes memInfo)%float]> ∅))
        st [GetMemoryInfo]
  | inl e =>
      mkOutcome (Ok ∅) st
                [GetMemoryInfo; LogException e "Memory snapshot failed."]
  end.
Proof.
  unfold LocalEventManager.createMemoryInfo, LocalEventManager._getMemoryInfo.
  destruct (memoryInfo w) as [e|memInfo] eqn:H.
  - erewrite tryCatch_err
      by (erewrite bind_err by (rewrite getMemoryInfo_run, H; reflexivity);
          reflexivity).
    unfold LocalEventManager.log_exception.
    erewrite bind_ok by reflexivity. settle.
  - erewrite tryCatch_ok
      by (erewrite bind_ok by (rewrite getMemoryInfo_run, H; reflexivity);
          settle).
    reflexivity.
Qed.

Lemma getCpuInfo_trace_sampling (w : World) (st : ModuleState) :
  forallb isSamplingCall (trace (getCpuInfo w st)) = true.
Proof.
  destruct (isLambdaEnvironment w) eqn:Hl.
  { rewrite getCpuInfo_lambda by assumption. reflexivity. }
  destruct (containerised w) eqn:Hc.
  2: { rewrite getCpuInfo_bareMetal by assumption. reflexivity. }
  rewrite getCpuInfo_containerised by assumption. cbv zeta.
  assert (Hprobe : forallb isSamplingCall (IsContainerised :: probe st) = true).
  { unfold probe. destruct (_cgroupsVersion st); reflexivity. }
  destruct (settled (getCpuQuota _) w) as [[quota|]|e];
    [destruct (settled (getCpuPeriod _) w) as [period|e];
     [destruct (settled (sampleCpuUsage _) w) as [sample|e]|]| |];
    cbn [trace]; rewrite forallb_app, Hprobe; reflexivity.
Qed.

Lemma emitSystemInfoEvent_run (cfg : Configuration) (callback : Async unit)
    (w : World) (st st1 st2 : ModuleState) (cpu memory : gmap string Value)
    (cpuCalls memoryCalls : list Event) :
  LocalEventManager.createCpuInfo (maxUsedCpuRatio cfg) w st
  = mkOutcome (Ok cpu) st1 cpuCalls →
  LocalEventManager.createMemoryInfo w st1
  = mkOutcome (Ok memory) st2 memoryCalls →
  LocalEventManager.emitSystemInfoEvent cfg callback w st
  = prepend
      ((cpuCalls ++ memoryCalls)
       ++ [Emit LocalEventManager.SYSTEM_INFO
             (memory ∪ (cpu ∪ <["createdAt" := VDate (now w)]> ∅))])
      (callback w st2).
Proof.
  intros Hcpu Hmem.
  unfold LocalEventManager.emitSystemInfoEvent, LocalEventManager.createSystemInfo.
  erewrite bind_ok
    by (erewrite bind_ok by reflexivity; cbv beta zeta;
        erewrite bind_ok by exact Hcpu;
        erewrite bind_ok by exact Hmem; settle).
  erewrite bind_ok by reflexivity.
  rewrite !prepend_prepend. rewrite !app_nil_r. reflexivity.
Qed.

(** C7: one tick of the aggregator, whatever the two samplers do.  Both
    samplers are invoked, the CPU sampler first; the snapshot is published
    once, with [createdAt]; a sampler that fails contributes no field and
    the other one contributes its own; after the publication the tick
    calls the interval callback, and with the callback of the timer it
    settles without an exception. *)
Theorem emitSystemInfoEvent_sampler_failures (cfg : Configuration)
    (intervalCallback : Async unit) (w : World) (st : ModuleState) :
  let sampler := getCpuInfo w st in
  ∃ sampling info,
    LocalEventManager.emitSystemInfoEvent cfg intervalCallback w st
    = prepend (sampling ++ [Emit LocalEventManager.SYSTEM_INFO info])
              (intervalCallback w (final sampler)) ∧
    (∃ cpuLog memoryLog,
       sampling = trace sampler ++ cpuLog ++ [GetMemoryInfo] ++ memoryLog) ∧
    forallb isSamplingCall sampling = true ∧
    info !! "createdAt" = Some (VDate (now w)) ∧
    match completion sampler with
    | Ok usedCpuRatio =>
        info !! "cpuCurrentUsage" = Some (VNumber (usedCpuRatio * 100)%float) ∧
        info !! "isCpuOverloaded"
        = Some (VBoolean (maxUsedCpuRatio cfg <? usedCpuRatio)%float)
    | Err _ =>
        info !! "cpuCurrentUsage" = None ∧ info !! "isCpuOverloaded" = None
    end ∧
    match memoryInfo w with
    | inr memInfo =>
        info !! "memCurrentBytes"
        = Some (VNumber (mainProcessBytes memInfo
                         + childProcessesBytes memInfo)%float)
    | inl _ => info !! "memCurrentBytes" = None
    end ∧
    completion (LocalEventManager.emitSystemInfoEvent cfg scheduleCall w st)
    = Ok ().
Proof.
  intros sampler.
  pose proof (getCpuInfo_trace_sampling w st) as Hsampling.
  pose proof (createCpuInfo_run (maxUsedCpuRatio cfg) w st) as Hcpu.
  cbv zeta in Hcpu. fold sampler in Hsampling, Hcpu.
  pose proof (createMemoryInfo_run w (final sampler)) as Hmem.
  clearbody sampler.
  destruct (completion sampler) as [usedCpuRatio|e];
    destruct (memoryInfo w) as [e'|memInfo].
  all: eexists; eexists; split;
         [apply (emitSystemInfoEvent_run _ _ _ _ _ _ _ _ _ _ Hcpu Hmem)|].
  all: rewrite (emitSystemInfoEvent_run _ _ _ _ _ _ _ _ _ _ Hcpu Hmem).
  all: rewrite !forallb_app, Hsampling.
  1: split; [exists [], [LogException e' "Memory snapshot failed."];
             reflexivity|].
  2: split; [exists [], []; reflexivity|].
  3: split; [exists [LogException e "Cpu snapshot failed."],
                    [LogException e' "Memory snapshot failed."];
             rewrite <- app_assoc; reflexivity|].
  4: split; [exists [LogException e "Cpu snapshot failed."], [];
             rewrite <- app_assoc; reflexivity|].
  all: split; [reflexivity|].
  all: rewrite !lookup_union, ?lookup_empty.
  all: repeat (first [rewrite lookup_insert_eq
                     | rewrite lookup_insert_ne by (intros ?; discriminate)]).
  all: rewrite ?lookup_empty.
  all: repeat split; reflexivity.
Qed.

(** A tick whose CPU sampler fails, and a tick whose memory sampler
    fails: each publishes one snapshot, without the fields of the sampler
    that failed, and calls the interval callback last. *)
Example tick_cpuSamplerFails :
  let tick := invoke config cpuSamplerFails initialState in
  completion tick = Ok ()
  ∧ fieldsOf <$> snapshots (trace tick)
    = [(Some (VDate 1714000000000), None, None, Some (VNumber 4000))]
  ∧ last (trace tick) = Some IntervalCallback
  ∧ GetMemoryInfo ∈ trace tick.
Proof.
  cbv zeta. repeat split; try (vm_compute; reflexivity).
  apply list_elem_of_In. vm_compute. tauto.
Qed.

Example tick_memorySamplerFails :
  let tick := invoke config memorySamplerFails initialState in
  completion tick = Ok ()
  ∧ fieldsOf <$> snapshots (trace tick)
    = [(Some (VDate 1714000000000), Some (VNumber 50),
        Some (VBoolean false), None)]
  ∧ last (trace tick) = Some IntervalCallback
  ∧ Cpus ∈ trace tick.
Proof.
  cbv zeta. repeat split; try (vm_compute; reflexivity).
  apply list_elem_of_In. vm_compute. tauto.
Qed.

(* ===================================================================== *)
(** * The aggregator: successive ticks *)
(* ===================================================================== *)

Lemma invoke_trace (cfg : Configuration) (w : World) (st : ModuleState) :
  ∃ sampling info,
    trace (invoke cfg w st)
    = sampling ++ [Emit LocalEventManager.SYSTEM_INFO info; IntervalCallback]
    ∧ forallb isSamplingCall sampling = true.
Proof.
  pose proof (getCpuInfo_trace_sampling w st) as Hsampling.
  pose proof (createCpuInfo_run (maxUsedCpuRatio cfg) w st) as Hcpu.
  cbv zeta in Hcpu.
  pose proof (createMemoryInfo_run w (final (getCpuInfo w st))) as Hmem.
  unfold invoke.
  destruct (completion (getCpuInfo w st)) as [usedCpuRatio|e];
    destruct (memoryInfo w) as [e'|memInfo];
    rewrite (emitSystemInfoEvent_run _ _ _ _ _ _ _ _ _ _ Hcpu Hmem);
    unfold prepend, scheduleCall; cbn [trace tell];
    eexists; eexists;
    (split; [rewrite <- app_assoc; reflexivity|]);
    rewrite !forallb_app, Hsampling; reflexivity.
Qed.

Lemma invoke_endsWithCallback (cfg : Configuration) (w : World)
    (st : ModuleState) :
  endsWithCallback (trace (invoke cfg w st)).
Proof.
  destruct (invoke_trace cfg w st) as (sampling & info & -> & Hsampling).
  exists (sampling ++ [Emit LocalEventManager.SYSTEM_INFO info]). split.
  - rewrite <- app_assoc. reflexivity.
  - apply Forall_app. split.
    + apply Forall_forall. intros ev Hin ->.
      rewrite forallb_forall in Hsampling.
      apply list_elem_of_In in Hin.
      specialize (Hsampling _ Hin). discriminate.
    + repeat constructor. discriminate.
Qed.

Lemma perform_outstanding (ev : Event) (l : Loop) (calls : list (list Event)) :
  outstanding (perform ev l calls) = calls.
Proof. destruct ev; reflexivity. Qed.

Lemma perform_timeoutPending (ev : Event) (l : Loop) (calls : list (list Event)) :
  ev ≠ IntervalCallback →
  timeoutPending (perform ev l calls) = timeoutPending l.
Proof. destruct ev; intros H; try reflexivity. contradiction. Qed.

Lemma oneAtATime_init (cfg : Configuration) (w : World) (st : ModuleState) :
  oneAtATime (init cfg w st).
Proof.
  right. exists (trace (invoke cfg w st)).
  split; [reflexivity|]. split; [apply invoke_endsWithCallback | reflexivity].
Qed.

Lemma oneAtATime_step (cfg : Configuration) (l l' : Loop) :
  oneAtATime l → step cfg l l' → oneAtATime l'.
Proof.
  intros Hinv Hstep.
  destruct Hstep as [l w Hpending | l before after ev rest Hout | l].
  - (* the timeout fires *)
    destruct Hinv as [Hnone | (calls & _ & _ & Hfalse)]; [|congruence].
    right. exists (trace (invoke cfg w (moduleState l))). cbn.
    rewrite Hnone. split; [reflexivity|].
    split; [apply invoke_endsWithCallback | reflexivity].
  - (* an invocation issues its next call *)
    destruct Hinv as [Hnone | (calls & Hone & (pre & Hcalls & Hpre) & Hfalse)].
    { rewrite Hnone in Hout. destruct before; discriminate. }
    rewrite Hone in Hout.
    destruct before as [|b before]; [|destruct before; discriminate].
    cbn in Hout. injection Hout as Hcalls' <-. subst calls.
    destruct rest as [|ev' rest].
    + left. rewrite perform_outstanding. reflexivity.
    + destruct pre as [|p pre]; [discriminate|].
      cbn in Hcalls'. injection Hcalls' as <- Hrest.
      apply Forall_cons in Hpre as [Hev Hpre].
      right. exists (ev' :: rest).
      rewrite perform_outstanding, perform_timeoutPending by exact Hev.
      split; [reflexivity|]. split; [|exact Hfalse].
      exists pre. split; [symmetry; exact Hrest | exact Hpre].
  - (* the manager is closed *)
    unfold close.
    destruct Hinv as [Hnone | (calls & Hone & Hends & _)].
    + left. exact Hnone.
    + right. exists calls. repeat split; assumption.
Qed.

Lemma reachable_oneAtATime (cfg : Configuration) (l : Loop) :
  reachable cfg l → oneAtATime l.
Proof.
  intros (w & st & Hrtc). revert l Hrtc. apply rtc_ind_r.
  - apply oneAtATime_init.
  - intros l l' _ Hstep Hinv. eapply oneAtATime_step; eassumption.
Qed.

Lemma play_steps (cfg : Configuration) (calls : list Event) (l : Loop) :
  outstanding l = remaining calls → rtc (step cfg) l (play calls l).
Proof.
  revert l. induction calls as [|ev rest IH]; intros l Hout.
  - apply rtc_refl.
  - cbn [play]. eapply rtc_l.
    + apply (step_progress cfg l [] [] ev rest). exact Hout.
    + cbn [app]. rewrite app_nil_r. apply IH. apply perform_outstanding.
Qed.

(** The loop is not stuck: the first invocation settles after it has
    published its snapshot and set the timeout, the timeout fires, and the
    second invocation publishes in turn. *)
Example two_ticks :
  let first := init config scenarioA initialState in
  let idle := play (trace (invoke config scenarioA initialState)) first in
  let second :=
    mkLoop true false [trace (invoke config scenarioB_first (moduleState idle))]
           (final (invoke config scenarioB_first (moduleState idle)))
           (published idle) in
  let done := play (trace (invoke config scenarioB_first (moduleState idle)))
                   second in
  reachable config done
  ∧ (outstanding idle, timeoutPending idle, length (published idle))
    = ([], true, 1%nat)
  ∧ (outstanding done, timeoutPending done, length (published done))
    = ([], true, 2%nat).
Proof.
  intros first idle second done. split.
  - exists scenarioA, initialState. fold first.
    eapply rtc_trans.
    { apply (play_steps config (trace (invoke config scenarioA initialState))).
      vm_compute. reflexivity. }
    fold idle. eapply rtc_l.
    + apply (step_timeout config idle scenarioB_first). vm_compute. reflexivity.
    + apply (play_steps config
               (trace (invoke config scenarioB_first (moduleState idle)))).
      vm_compute. reflexivity.
  - split; vm_compute; reflexivity.
Qed.

(** C8: every invocation of [emitSystemInfoEvent] by the timer issues its
    sampling calls, then publishes the snapshot, then calls the interval
    callback, which is what puts the next invocation on a timeout.  Hence,
    in every state the interval created by [init()] can reach, at most one
    invocation is outstanding, no timeout is pending while one is, and a
    step that starts an invocation starts it when none is outstanding. *)
Theorem no_overlapping_ticks (cfg : Configuration) :
  (∀ w st, ∃ sampling info,
     trace (invoke cfg w st)
     = sampling ++ [Emit LocalEventManager.SYSTEM_INFO info; IntervalCallback]
     ∧ forallb isSamplingCall sampling = true) ∧
  (∀ l, reachable cfg l →
     (length (outstanding l) ≤ 1)%nat
     ∧ (timeoutPending l = true → outstanding l = [])) ∧
  (∀ l l', reachable cfg l → step cfg l l' →
     (length (outstanding l) < length (outstanding l'))%nat →
     outstanding l = [] ∧ (length (outstanding l') = 1)%nat).
Proof.
  split; [apply invoke_trace|].
  assert (Hbound : ∀ l, oneAtATime l →
            (length (outstanding l) ≤ 1)%nat
            ∧ (timeoutPending l = true → outstanding l = [])).
  { intros l [Hnone | (calls & Hone & _ & Hfalse)].
    - rewrite Hnone. split; [cbn; lia | reflexivity].
    - rewrite Hone. split; [cbn; lia | congruence]. }
  split.
  - intros l Hreach. apply Hbound, (reachable_oneAtATime cfg), Hreach.
  - intros l l' Hreach Hstep Hlen.
    pose proof (reachable_oneAtATime cfg l Hreach) as Hinv.
    pose proof (oneAtATime_step cfg l l' Hinv Hstep) as Hinv'.
    destruct (Hbound l' Hinv') as [Hle' _].
    destruct (outstanding l) as [|calls others] eqn:Hout.
    + split; [reflexivity|]. cbn in Hlen. lia.
    + cbn in Hlen. lia.
Qed.

Lemma no_overlapping_ticks_witness :
  (length (outstanding (close (init config scenarioA initialState))) ≤ 1)%nat.
Proof.
  refine (proj1 (proj1 (proj2 (no_overlapping_ticks config))
                   (close (init config scenarioA initialState)) _)).
  exists scenarioA, initialState. apply rtc_once, step_close.
Defined.

(* ===================================================================== *)
(** * The weighted average *)
(* ===================================================================== *)

(** The expectations of the test-suite. *)
Example weightedAvg_tests :
  (weightedAvg [10; 10; 10] [1; 1; 1] = 10
   ∧ weightedAvg [5; 10; 15] [1; 1; 1] = 10
   ∧ weightedAvg [10; 10; 10] [0.5; 1; 1.5] = 10
   ∧ weightedAvg [29; 35; 89] [13; 91; 3]
     = (29 * 13 + 35 * 91 + 89 * 3) / (13 + 91 + 3)
   ∧ weightedAvg [] [] = nan
   ∧ weightedAvg [1] [0] = nan
   ∧ weightedAvg [] [1] = nan)%float.
Proof. vm_compute. repeat split. Qed.

Lemma weightedSums_zip (arrValues arrWeights : list float) (acc : float * float) :
  length arrValues = length arrWeights →
  weightedSums arrValues arrWeights acc =
  (fold_left PrimFloat.add (zip_with PrimFloat.mul arrValues arrWeights) acc.1,
   fold_left PrimFloat.add arrWeights acc.2).
Proof.
  revert arrWeights acc.
  induction arrValues as [|value values IH]; intros [|weight weights] acc Hlen;
    try discriminate.
  - destruct acc. reflexivity.
  - cbn [weightedSums head tail default from_option id]. rewrite IH by (cbn in Hlen; lia).
    reflexivity.
Qed.

Lemma zero_zeroOrNaN (x : float) : (x =? 0)%float = true → zeroOrNaN x.
Proof.
  unfold zeroOrNaN. rewrite FloatAxioms.eqb_spec.
  change (Prim2SF 0) with (S754_zero false).
  destruct (Prim2SF x) as [s|s| |s m e]; cbn; try discriminate; try trivial;
    destruct s; discriminate.
Qed.

Lemma mul_zeroOrNaN (x w : float) : zeroOrNaN w → zeroOrNaN (x * w).
Proof.
  unfold zeroOrNaN. rewrite FloatAxioms.mul_spec. unfold SF64mul.
  destruct (Prim2SF x) as [sx|sx| |sx mx ex], (Prim2SF w) as [sw|sw| |sw mw ew];
    cbn; tauto.
Qed.

Lemma add_zeroOrNaN (x y : float) :
  zeroOrNaN x → zeroOrNaN y → zeroOrNaN (x + y).
Proof.
  unfold zeroOrNaN. rewrite FloatAxioms.add_spec. unfold SF64add.
  destruct (Prim2SF x) as [sx|sx| |sx mx ex], (Prim2SF y) as [sy|sy| |sy my ey];
    cbn; try tauto.
  destruct sx, sy; cbn; tauto.
Qed.

Lemma div_zeroOrNaN (x y : float) : zeroOrNaN x → zeroOrNaN y → (x / y)%float = nan.
Proof.
  unfold zeroOrNaN. intros Hx Hy. apply Prim2SF_inj.
  rewrite FloatAxioms.div_spec. unfold SF64div.
  change (Prim2SF nan) with S754_nan.
  destruct (Prim2SF x) as [sx|sx| |sx mx ex], (Prim2SF y) as [sy|sy| |sy my ey];
    cbn in *; try tauto; reflexivity.
Qed.

Lemma weightedSums_zeroOrNaN (arrValues arrWeights : list float)
    (acc : float * float) :
  Forall (λ w, (w =? 0)%float = true) arrWeights →
  zeroOrNaN acc.1 → zeroOrNaN acc.2 →
  zeroOrNaN (weightedSums arrValues arrWeights acc).1
  ∧ zeroOrNaN (weightedSums arrValues arrWeights acc).2.
Proof.
  revert arrWeights acc.
  induction arrValues as [|value values IH]; intros weights acc Hzero H1 H2.
  - split; assumption.
  - cbn [weightedSums].
    assert (Hw : zeroOrNaN (default nan (head weights))).
    { destruct Hzero as [|w ws Hw _]; [exact I | apply zero_zeroOrNaN, Hw]. }
    apply IH.
    + destruct Hzero; [constructor | assumption].
    + apply add_zeroOrNaN; [exact H1 | apply mul_zeroOrNaN, Hw].
    + apply add_zeroOrNaN; [exact H2 | exact Hw].
Qed.

(** C9 (on the definition modelled from the spec): for value and weight
    vectors of the same length that are not empty and whose weights sum to
    a positive number, [weightedAvg] is [Σ(value_i × weight_i) /
    Σ(weight_i)]; for an empty vector of values, and for weights that are
    all zero, it is NaN, which is not zero. *)
Theorem weightedAvg_spec (arrValues arrWeights : list float) :
  (length arrValues = length arrWeights →
   arrValues ≠ [] →
   (0 <? sumOf arrWeights)%float = true →
   weightedAvg arrValues arrWeights
   = (sumOfProducts arrValues arrWeights / sumOf arrWeights)%float) ∧
  (arrValues = [] ∨ Forall (λ w, (w =? 0)%float = true) arrWeights →
   weightedAvg arrValues arrWeights = nan
   ∧ (weightedAvg arrValues arrWeights =? 0)%float = false).
Proof.
  split.
  - intros Hlen _ _. unfold weightedAvg, sumOfProducts, sumOf. cbv zeta.
    rewrite weightedSums_zip by exact Hlen. reflexivity.
  - assert (Hnan : arrValues = [] ∨ Forall (λ w, (w =? 0)%float = true) arrWeights →
                   weightedAvg arrValues arrWeights = nan).
    { intros [-> | Hzero]; [reflexivity|].
      unfold weightedAvg. cbv zeta.
      destruct (weightedSums_zeroOrNaN arrValues arrWeights (0%float, 0%float) Hzero)
        as [H1 H2]; try exact I.
      apply div_zeroOrNaN; assumption. }
    intros H. rewrite (Hnan H). split; reflexivity.
Qed.

Lemma weightedAvg_spec_witness :
  (weightedAvg [29; 35; 89] [13; 91; 3]
   = sumOfProducts [29; 35; 89] [13; 91; 3] / sumOf [13; 91; 3]
   ∧ weightedAvg [1] [0] = nan)%float.
Proof.
  split.
  - apply (proj1 (weightedAvg_spec [29; 35; 89] [13; 91; 3])%float);
      [reflexivity | discriminate | reflexivity].
  - apply (proj2 (weightedAvg_spec [1] [0])%float).
    right. repeat constructor.
Defined.

(* ===================================================================== *)
(** * Further properties: binary64 facts used below *)
(* ===================================================================== *)

Lemma sub_zero_r (x : float) : (x - 0)%float = x.
Proof.
  apply Prim2SF_inj. rewrite FloatAxioms.sub_spec. unfold SF64sub.
  change (Prim2SF 0) with (S754_zero false).
  destruct (Prim2SF x) as [s|s| |s m e]; try reflexivity.
  destruct s; reflexivity.
Qed.

Lemma sub_diag (x : float) : finite x → (x - x)%float = 0%float.
Proof.
  unfold finite. intros Hx. apply Prim2SF_inj.
  rewrite FloatAxioms.sub_spec. unfold SF64sub.
  change (Prim2SF 0) with (S754_zero false).
  destruct (Prim2SF x) as [s|s| |s m e]; try contradiction.
  - destruct s; reflexivity.
  - cbn [SFsub]. rewrite Z.sub_diag. reflexivity.
Qed.

Lemma sub_nan_l (y : float) : (nan - y)%float = nan.
Proof.
  apply Prim2SF_inj. rewrite FloatAxioms.sub_spec. unfold SF64sub.
  change (Prim2SF nan) with S754_nan. reflexivity.
Qed.

Lemma sub_nan_r (x : float) : (x - nan)%float = nan.
Proof.
  apply Prim2SF_inj. rewrite FloatAxioms.sub_spec. unfold SF64sub.
  change (Prim2SF nan) with S754_nan.
  destruct (Prim2SF x); reflexivity.
Qed.

Lemma div_nan_l (y : float) : (nan / y)%float = nan.
Proof.
  apply Prim2SF_inj. rewrite FloatAxioms.div_spec. unfold SF64div.
  change (Prim2SF nan) with S754_nan. reflexivity.
Qed.

Lemma div_nan_r (x : float) : (x / nan)%float = nan.
Proof.
  apply Prim2SF_inj. rewrite FloatAxioms.div_spec. unfold SF64div.
  change (Prim2SF nan) with S754_nan.
  destruct (Prim2SF x); reflexivity.
Qed.

Lemma mul_nan_l (y : float) : (nan * y)%float = nan.
Proof.
  apply Prim2SF_inj. rewrite FloatAxioms.mul_spec. unfold SF64mul.
  change (Prim2SF nan) with S754_nan. reflexivity.
Qed.

Lemma ltb_nan_r (x : float) : (x <? nan)%float = false.
Proof.
  rewrite FloatAxioms.ltb_spec. change (Prim2SF nan) with S754_nan.
  unfold SFltb. destruct (Prim2SF x); reflexivity.
Qed.

Lemma ltb_nan_l (y : float) : (nan <? y)%float = false.
Proof.
  rewrite FloatAxioms.ltb_spec. change (Prim2SF nan) with S754_nan. reflexivity.
Qed.

(* ===================================================================== *)
(** * Further properties of the CPU sampler *)
(* ===================================================================== *)

(** X1: a call of [getCpuInfo] in the serverless sandbox or outside any
    container returns what [getCurrentCpuTicks] returns, leaves the module
    state as it is (the control-group version stays unresolved) and issues
    no file-system call; in the sandbox it does not even ask whether the
    process is containerised. *)
Theorem getCpuInfo_outside_container (w : World) (st : ModuleState) :
  isLambdaEnvironment w = true ∨ containerised w = false →
  let o := getCpuInfo w st in
  completion o = completion (getCurrentCpuTicks w st)
  ∧ final o = st
  ∧ List.filter isFileSystemCall (trace o) = []
  ∧ (isLambdaEnvironment w = true → trace o = [Cpus]).
Proof.
  intros H. cbv zeta.
  rewrite (reader_completion _ _ _ _ getCurrentCpuTicks_reader).
  destruct (isLambdaEnvironment w) eqn:Hl.
  - rewrite getCpuInfo_lambda by exact Hl. repeat split.
  - destruct H as [H|Hc]; [discriminate|].
    rewrite getCpuInfo_bareMetal by assumption. repeat split. discriminate.
Qed.

Lemma getCpuInfo_outside_container_witness :
  getCpuInfo lambdaSandbox initialState
  = mkOutcome (Ok 0.5%float) initialState [Cpus].
Proof.
  pose proof (getCpuInfo_outside_container lambdaSandbox initialState
                (or_introl eq_refl)) as (Hc & Hf & _ & Ht).
  specialize (Ht eq_refl).
  destruct (getCpuInfo lambdaSandbox initialState) as [c f t].
  cbn [completion final trace] in *. subst. reflexivity.
Defined.

(** What one call of an exported function does to the cached version, and
    how often it probes the V1 path. *)
Lemma callOutcome_version (c : Call) (w : World) (st : ModuleState) :
  let after := callOutcome c w st in
  match _cgroupsVersion st with
  | Some v =>
      _cgroupsVersion after.1 = Some v
      ∧ List.filter isAccess after.2 = []
  | None =>
      List.filter isAccess after.2 = []
      ∨ (List.filter isAccess after.2 = [Access CGROUP_MEMORY_DIR]
         ∧ ∃ v, _cgroupsVersion after.1 = Some v)
  end.
Proof.
  cbv zeta. destruct c; unfold callOutcome; cbv zeta; cbn [fst snd].
  - rewrite getCgroupsVersion_run. unfold versionIn, probe.
    cbn [completion final trace _cgroupsVersion].
    destruct (_cgroupsVersion st) as [v|]; [split; reflexivity|].
    right. split; [reflexivity | eexists; reflexivity].
  - destruct (isLambdaEnvironment w) eqn:Hl.
    { rewrite getCpuInfo_lambda by exact Hl. cbn [final trace].
      destruct (_cgroupsVersion st); [split|left]; reflexivity. }
    destruct (containerised w) eqn:Hc.
    2: { rewrite getCpuInfo_bareMetal by assumption. cbn [final trace].
         destruct (_cgroupsVersion st); [split|left]; reflexivity. }
    rewrite getCpuInfo_containerised by assumption. cbv zeta.
    unfold versionIn, probe.
    destruct (settled (getCpuQuota _) w) as [[quota|]|e];
      [destruct (settled (getCpuPeriod _) w) as [period|e];
       [destruct (settled (sampleCpuUsage _) w) as [sample|e]|]| |];
      cbn [final trace _cgroupsVersion];
      destruct (_cgroupsVersion st) as [v|];
      try (split; reflexivity);
      right; (split; [reflexivity | eexists; reflexivity]).
Qed.

Lemma session_cached (calls : list (Call * World)) (st : ModuleState)
    (v : CgroupsVersion) :
  _cgroupsVersion st = Some v →
  _cgroupsVersion (session calls st).1 = Some v
  ∧ List.filter isAccess (session calls st).2 = [].
Proof.
  revert st. induction calls as [|[c w] rest IH]; intros st Hv.
  - split; [exact Hv | reflexivity].
  - cbn [session]. cbv zeta. cbn [fst snd].
    pose proof (callOutcome_version c w st) as Hcall. cbv zeta in Hcall.
    rewrite Hv in Hcall. destruct Hcall as [Hv' Hnone].
    destruct (IH _ Hv') as [Hlast Hrest].
    split; [exact Hlast|].
    rewrite List.filter_app, Hnone, Hrest. reflexivity.
Qed.

(** X2: over a whole session of calls of the exported functions, in
    whatever worlds, the V1 memory-accounting path is probed at most once
    and no other path is ever passed to [access]; and once the
    control-group version is resolved, no later call changes it or probes
    again. *)
Theorem cgroupsVersion_resolved_once (calls : list (Call * World))
    (st : ModuleState) :
  (List.filter isAccess (session calls st).2 = []
   ∨ List.filter isAccess (session calls st).2 = [Access CGROUP_MEMORY_DIR])
  ∧ (∀ v, _cgroupsVersion st = Some v →
       _cgroupsVersion (session calls st).1 = Some v
       ∧ List.filter isAccess (session calls st).2 = []).
Proof.
  split; [|intros v Hv; apply session_cached, Hv].
  revert st. induction calls as [|[c w] rest IH]; intros st.
  - left. reflexivity.
  - cbn [session]. cbv zeta. cbn [fst snd]. rewrite List.filter_app.
    pose proof (callOutcome_version c w st) as Hcall. cbv zeta in Hcall.
    destruct (_cgroupsVersion st) as [v|].
    + destruct Hcall as [Hv' ->].
      destruct (session_cached rest _ v Hv') as [_ ->]. left. reflexivity.
    + destruct Hcall as [-> | [-> [v Hv']]].
      * apply IH.
      * destruct (session_cached rest _ v Hv') as [_ ->]. right. reflexivity.
Qed.

Lemma cgroupsVersion_resolved_once_witness :
  _cgroupsVersion
    (session [(CallGetCpuInfo, scenarioB_first); (CallGetCgroupsVersion, scenarioA)]
             (mkModuleState (Some V2) (mkCpuSample 0 0))).1
  = Some V2.
Proof.
  apply (proj2 (cgroupsVersion_resolved_once
                  [(CallGetCpuInfo, scenarioB_first);
                   (CallGetCgroupsVersion, scenarioA)]
                  (mkModuleState (Some V2) (mkCpuSample 0 0))) V2 eq_refl).
Defined.

Example mixedSession_probes_once :
  List.filter isAccess (session mixedSession initialState).2
  = [Access CGROUP_MEMORY_DIR]
  ∧ _cgroupsVersion (session mixedSession initialState).1 = Some V2.
Proof. vm_compute. split; reflexivity. Qed.

(** X3: [getCurrentCpuTicks] returns 0 when the total of the tick sums is
    zero or NaN, in particular when [os.cpus()] is empty, and
    [1 − idle / total] of the sums otherwise; it never changes the module
    state and only calls [os.cpus()]. *)
Theorem getCurrentCpuTicks_guard (w : World) (st : ModuleState) :
  let ticks := sumTicks (cpus w) in
  (JS.truthy (ticks_total ticks) = false →
   getCurrentCpuTicks w st = mkOutcome (Ok 0%float) st [Cpus])
  ∧ (JS.truthy (ticks_total ticks) = true →
     getCurrentCpuTicks w st
     = mkOutcome (Ok (1 - ticks_idle ticks / ticks_total ticks)%float) st [Cpus])
  ∧ (cpus w = [] → completion (getCurrentCpuTicks w st) = Ok 0%float).
Proof.
  cbv zeta.
  assert (Hrun : getCurrentCpuTicks w st =
            mkOutcome
              (Ok (if JS.truthy (ticks_total (sumTicks (cpus w)))
                   then (1 - ticks_idle (sumTicks (cpus w))
                             / ticks_total (sumTicks (cpus w)))%float
                   else 0%float)) st [Cpus]).
  { rewrite getCurrentCpuTicks_run. cbv zeta. rewrite !sub_zero_r. reflexivity. }
  rewrite Hrun. repeat split.
  - intros ->. reflexivity.
  - intros ->. reflexivity.
  - intros ->. reflexivity.
Qed.

Lemma getCurrentCpuTicks_guard_witness :
  getCurrentCpuTicks (bareMetal (cores 3 (mkCpuTimes 0 0 0 0 0))) initialState
  = mkOutcome (Ok 0%float) initialState [Cpus].
Proof.
  apply (proj1 (getCurrentCpuTicks_guard
                  (bareMetal (cores 3 (mkCpuTimes 0 0 0 0 0))) initialState)).
  reflexivity.
Defined.

(* ===================================================================== *)
(** * Further properties of the readers of the pseudo-files *)
(* ===================================================================== *)

Lemma scanUsageUsec_first (before after : list string) (line : string)
    (usageUsec : float) :
  existsb isUsageUsecLine before = false →
  isUsageUsecLine line = true →
  scanUsageUsec (before ++ line :: after) usageUsec
  = JS.Number (JS.splitWs (JS.trim line) !! 1%nat).
Proof.
  intros Hbefore Hline.
  induction before as [|l before IH]; cbn [app scanUsageUsec].
  - unfold isUsageUsecLine in Hline. rewrite Hline. reflexivity.
  - cbn [existsb] in Hbefore. apply orb_false_iff in Hbefore as [Hl Hbefore].
    unfold isUsageUsecLine in Hl. rewrite Hl. apply IH, Hbefore.
Qed.

Lemma scanUsageUsec_none (lines : list string) (usageUsec : float) :
  existsb isUsageUsecLine lines = false →
  scanUsageUsec lines usageUsec = usageUsec.
Proof.
  induction lines as [|l lines IH]; intros H; cbn [scanUsageUsec].
  - reflexivity.
  - cbn [existsb] in H. apply orb_false_iff in H as [Hl H].
    unfold isUsageUsecLine in Hl. rewrite Hl. apply IH, H.
Qed.

Lemma getContainerCpuUsage_V2_run (w : World) (st : ModuleState) (data : string) :
  completion (readFile (CPU_FILE_PATHS.STAT V2) w st) = Ok data →
  completion (getContainerCpuUsage V2 w st)
  = Ok (scanUsageUsec (JS.split "010" data) 0 * 1000)%float.
Proof.
  rewrite readFile_run. cbn [completion]. intros Hread.
  unfold getContainerCpuUsage.
  erewrite bind_ok by (rewrite readFile_run, Hread; reflexivity).
  reflexivity.
Qed.

(** X4: under cgroups V2, when no line of [cpu.stat] has the key
    [usage_usec], in particular when the file is empty,
    [getContainerCpuUsage] returns 0 and throws nothing. *)
Theorem getContainerCpuUsage_V2_missing_key (w : World) (st : ModuleState)
    (data : string) :
  completion (readFile (CPU_FILE_PATHS.STAT V2) w st) = Ok data →
  existsb isUsageUsecLine (JS.split "010" data) = false →
  completion (getContainerCpuUsage V2 w st) = Ok 0%float.
Proof.
  intros Hread Hnone.
  rewrite (getContainerCpuUsage_V2_run w st data Hread).
  rewrite scanUsageUsec_none by exact Hnone. reflexivity.
Qed.

Lemma getContainerCpuUsage_V2_missing_key_witness :
  completion (getContainerCpuUsage V2 (cgroupV2 "max 100000" "" "" []) initialState)
  = Ok 0%float.
Proof.
  apply (getContainerCpuUsage_V2_missing_key
           (cgroupV2 "max 100000" "" "" []) initialState "");
    reflexivity.
Defined.

(** X5: under cgroups V2, [getContainerCpuUsage] takes the first line of
    [cpu.stat] whose key is [usage_usec], whatever the lines after it, and
    returns its second field, as [Number] reads it, times 1000. *)
Theorem getContainerCpuUsage_V2_first_match (w : World) (st : ModuleState)
    (data : string) (before after : list string) (line : string) :
  completion (readFile (CPU_FILE_PATHS.STAT V2) w st) = Ok data →
  JS.split "010" data = before ++ line :: after →
  existsb isUsageUsecLine before = false →
  isUsageUsecLine line = true →
  completion (getContainerCpuUsage V2 w st)
  = Ok (JS.Number (JS.splitWs (JS.trim line) !! 1%nat) * 1000)%float.
Proof.
  intros Hread Hsplit Hbefore Hline.
  rewrite (getContainerCpuUsage_V2_run w st data Hread), Hsplit.
  rewrite scanUsageUsec_first by assumption. reflexivity.
Qed.

Lemma getContainerCpuUsage_V2_first_match_witness :
  completion
    (getContainerCpuUsage V2 (cgroupV2 "max 100000" cpuStatTwice "" [])
                          initialState)
  = Ok 2500000%float.
Proof.
  apply (getContainerCpuUsage_V2_first_match
           (cgroupV2 "max 100000" cpuStatTwice "" []) initialState
           cpuStatTwice ["nr_periods 7"] ["usage_usec 9"; ""]
           "  usage_usec 2500 ");
    reflexivity.
Defined.

Lemma scanCpuLine_first (before after : list string) (line : string)
    (w : World) (st : ModuleState) :
  existsb (JS.startsWith "cpu ") before = false →
  JS.startsWith "cpu " line = true →
  scanCpuLine (before ++ line :: after) w st
  = mkOutcome
      (Ok (sumOfFields (firstn 7 (skipn 1 (JS.splitWs line)))
           * NANOSECONDS_PER_SECOND / CLOCK_TICKS_PER_SECOND)%float)
      st [].
Proof.
  intros Hbefore Hline.
  induction before as [|l before IH]; cbn [app scanCpuLine].
  - rewrite Hline. reflexivity.
  - cbn [existsb] in Hbefore. apply orb_false_iff in Hbefore as [Hl Hbefore].
    rewrite Hl. apply IH, Hbefore.
Qed.

(** X6: [getSystemCpuUsage] takes the first line of the system-wide stat
    file that starts with [cpu] and a space, whatever the lines after it,
    sums the first seven fields after the label, as [Number] reads them,
    and ignores every further field; the sum is returned times 1e9 / 100. *)
Theorem getSystemCpuUsage_first_aggregate_line (w : World) (st : ModuleState)
    (data : string) (before after : list string) (line : string) :
  completion (readFile PROC_STAT w st) = Ok data →
  JS.split "010" data = before ++ line :: after →
  existsb (JS.startsWith "cpu ") before = false →
  JS.startsWith "cpu " line = true →
  getSystemCpuUsage w st
  = mkOutcome
      (Ok (sumOfFields (firstn 7 (skipn 1 (JS.splitWs line)))
           * 1e9 / 100)%float)
      st [ReadFile PROC_STAT].
Proof.
  rewrite readFile_run. cbn [completion]. intros Hread Hsplit Hbefore Hline.
  unfold getSystemCpuUsage.
  erewrite bind_ok by (rewrite readFile_run, Hread; reflexivity).
  cbv zeta. rewrite Hsplit.
  rewrite (scanCpuLine_first before after line w st Hbefore Hline).
  reflexivity.
Qed.

Lemma getSystemCpuUsage_first_aggregate_line_witness :
  getSystemCpuUsage (cgroupV2 "max 100000" "" procStatTen []) initialState
  = mkOutcome (Ok 280000000%float) initialState [ReadFile PROC_STAT].
Proof.
  apply (getSystemCpuUsage_first_aggregate_line
           (cgroupV2 "max 100000" "" procStatTen []) initialState procStatTen
           ["intr 12"] ["cpu 50 50 50 50 50 50 50"; ""]
           "cpu  1 2 3 4 5 6 7 800 900 1000");
    reflexivity.
Defined.

(** X7: the calls issued by [getCpuInfo] are [isContainerised()], one
    [access] of the V1 memory-accounting path, [os.cpus()], and reads of
    the system-wide stat file and of the quota, period and usage files of
    the control-group version the module holds after the call: a file of
    the other version is never read. *)
Theorem getCpuInfo_calls (w : World) (st : ModuleState) (ev : Event) :
  In ev (trace (getCpuInfo w st)) →
  In ev [IsContainerised; Access CGROUP_MEMORY_DIR; Cpus; ReadFile PROC_STAT]
  ∨ ∃ v, _cgroupsVersion (final (getCpuInfo w st)) = Some v
         ∧ In ev [ReadFile (CPU_FILE_PATHS.QUOTA v);
                  ReadFile (CPU_FILE_PATHS.PERIOD v);
                  ReadFile (CPU_FILE_PATHS.STAT v)].
Proof.
  destruct (isLambdaEnvironment w) eqn:Hl.
  { rewrite getCpuInfo_lambda by exact Hl. cbn. intuition (subst; auto). }
  destruct (containerised w) eqn:Hc.
  2: { rewrite getCpuInfo_bareMetal by assumption. cbn. intuition (subst; auto). }
  rewrite getCpuInfo_containerised by assumption. cbv zeta.
  assert (Hprobe : ∀ ev, In ev (IsContainerised :: probe st) →
            In ev [IsContainerised; Access CGROUP_MEMORY_DIR; Cpus;
                   ReadFile PROC_STAT]).
  { unfold probe. intros ev'. destruct (_cgroupsVersion st); cbn;
      intuition (subst; auto). }
  destruct (settled (getCpuQuota _) w) as [[quota|]|e];
    [destruct (settled (getCpuPeriod _) w) as [period|e];
     [destruct (settled (sampleCpuUsage _) w) as [sample|e]|]| |];
    cbn [final trace _cgroupsVersion]; rewrite in_app_iff;
    (intros [Hin|Hin]; [left; apply Hprobe, Hin|]);
    cbn in Hin; cbn [In];
    intuition (subst; eauto 10).
Qed.

Lemma getCpuInfo_calls_witness :
  In (ReadFile (CPU_FILE_PATHS.QUOTA V1))
     [IsContainerised; Access CGROUP_MEMORY_DIR; Cpus; ReadFile PROC_STAT]
  ∨ ∃ v, _cgroupsVersion (final (getCpuInfo scenarioB_first initialState))
         = Some v
         ∧ In (ReadFile (CPU_FILE_PATHS.QUOTA V1))
              [ReadFile (CPU_FILE_PATHS.QUOTA v);
               ReadFile (CPU_FILE_PATHS.PERIOD v);
               ReadFile (CPU_FILE_PATHS.STAT v)].
Proof.
  apply (getCpuInfo_calls scenarioB_first initialState).
  vm_compute. tauto.
Defined.

(** X13: under cgroups V2, when [cpu.max] has no second field,
    [getCpuPeriod] returns NaN and throws nothing. *)
Theorem getCpuPeriod_V2_missing_field (w : World) (st : ModuleState)
    (data : string) :
  completion (readFile (CPU_FILE_PATHS.PERIOD V2) w st) = Ok data →
  JS.splitWs (JS.trim data) !! 1%nat = None →
  getCpuPeriod V2 w st
  = mkOutcome (Ok nan) st [ReadFile (CPU_FILE_PATHS.PERIOD V2)].
Proof.
  rewrite readFile_run. cbn [completion]. intros Hread Hnone.
  unfold getCpuPeriod.
  erewrite bind_ok by (rewrite readFile_run, Hread; reflexivity).
  cbv zeta. rewrite Hnone. reflexivity.
Qed.

Lemma getCpuPeriod_V2_missing_field_witness :
  getCpuPeriod V2 noPeriodField initialState
  = mkOutcome (Ok nan) initialState [ReadFile (CPU_FILE_PATHS.PERIOD V2)].
Proof.
  apply (getCpuPeriod_V2_missing_field noPeriodField initialState
           ("200000" +:+ newline)); reflexivity.
Defined.

(** X14: [sampleCpuUsage] issues both reads whatever their outcome, the
    container usage first, leaves the module state as it is, and returns a
    sample exactly when both readers return its two components. *)
Theorem sampleCpuUsage_both_reads (v : CgroupsVersion) (w : World)
    (st : ModuleState) :
  trace (sampleCpuUsage v w st)
  = [ReadFile (CPU_FILE_PATHS.STAT v); ReadFile PROC_STAT]
  ∧ final (sampleCpuUsage v w st) = st
  ∧ ∀ sample,
      completion (sampleCpuUsage v w st) = Ok sample
      ↔ completion (getContainerCpuUsage v w st) = Ok (containerUsage sample)
        ∧ completion (getSystemCpuUsage w st) = Ok (systemUsage sample).
Proof.
  rewrite (sampleCpuUsage_reader v w st). cbn [completion final trace].
  rewrite (reader_completion _ _ _ _ (getContainerCpuUsage_reader v)).
  rewrite (reader_completion _ _ _ _ getSystemCpuUsage_reader).
  rewrite sampleCpuUsage_settled.
  split; [reflexivity|]. split; [reflexivity|].
  intros [cu su]. cbn [containerUsage systemUsage].
  destruct (settled (getContainerCpuUsage v) w) as [c|e],
           (settled getSystemCpuUsage w) as [s|e'];
    split; intros H; try discriminate; try (destruct H; discriminate).
  - injection H as <- <-. split; reflexivity.
  - destruct H as [Hc Hs]. injection Hc as <-. injection Hs as <-. reflexivity.
Qed.

(* ===================================================================== *)
(** * Further properties of the finite-quota branch *)
(* ===================================================================== *)

Lemma getCpuInfo_finite_run (w : World) (st : ModuleState) (v : CgroupsVersion)
    (quota period : float) (sample : CpuSample) :
  isLambdaEnvironment w = false → containerised w = true →
  completion (getCgroupsVersion w st) = Ok v →
  completion (getCpuQuota v w st) = Ok (Some quota) →
  completion (getCpuPeriod v w st) = Ok period →
  completion (sampleCpuUsage v w st) = Ok sample →
  completion (getCpuInfo w st)
  = Ok (quotaUsage (previousSample st) sample (length (cpus w)) quota period)
  ∧ final (getCpuInfo w st) = mkModuleState (Some v) sample.
Proof.
  intros Hl Hc Hv Hq Hp Hs.
  rewrite getCgroupsVersion_run in Hv. injection Hv as Hv.
  rewrite (reader_completion _ _ _ _ (getCpuQuota_reader v)) in Hq.
  rewrite (reader_completion _ _ _ _ (getCpuPeriod_reader v)) in Hp.
  rewrite (reader_completion _ _ _ _ (sampleCpuUsage_reader v)) in Hs.
  rewrite (getCpuInfo_containerised w st Hl Hc). cbv zeta.
  rewrite Hv, Hq, Hp, Hs. split; reflexivity.
Qed.

Lemma quotaUsage_nan (previous sample : CpuSample) (numCpus : nat)
    (quota period : float) :
  quota = nan ∨ period = nan
  ∨ containerUsage sample = nan ∨ systemUsage sample = nan →
  quotaUsage previous sample numCpus quota period = nan.
Proof.
  unfold quotaUsage. intros [-> | [-> | [-> | ->]]].
  - rewrite div_nan_l, div_nan_r. reflexivity.
  - rewrite (div_nan_r quota), div_nan_r. reflexivity.
  - rewrite sub_nan_l, div_nan_l, !mul_nan_l, div_nan_l. reflexivity.
  - rewrite sub_nan_l, div_nan_r, !mul_nan_l, div_nan_l. reflexivity.
Qed.

(** X8: in the finite-quota branch nothing checks what was parsed: when
    the quota, the period, the container usage or the system usage is NaN
    (a file content that is not a number), [getCpuInfo] completes and
    returns NaN, and it stores the sample all the same. *)
Theorem getCpuInfo_nan (w : World) (st : ModuleState) (v : CgroupsVersion)
    (quota period : float) (sample : CpuSample) :
  isLambdaEnvironment w = false → containerised w = true →
  completion (getCgroupsVersion w st) = Ok v →
  completion (getCpuQuota v w st) = Ok (Some quota) →
  completion (getCpuPeriod v w st) = Ok period →
  completion (sampleCpuUsage v w st) = Ok sample →
  quota = nan ∨ period = nan
  ∨ containerUsage sample = nan ∨ systemUsage sample = nan →
  completion (getCpuInfo w st) = Ok nan
  ∧ previousSample (final (getCpuInfo w st)) = sample.
Proof.
  intros Hl Hc Hv Hq Hp Hs Hnan.
  destruct (getCpuInfo_finite_run w st v quota period sample Hl Hc Hv Hq Hp Hs)
    as [-> ->].
  rewrite quotaUsage_nan by exact Hnan. split; reflexivity.
Qed.

Lemma getCpuInfo_nan_witness :
  completion (getCpuInfo noPeriodField initialState) = Ok nan.
Proof.
  refine (proj1 (getCpuInfo_nan noPeriodField initialState V2 200000 nan
                   (mkCpuSample 1000000000 4000000000) _ _ _ _ _ _ _));
    try (vm_compute; reflexivity).
  right. left. reflexivity.
Defined.

(** X9: when the CPU sampler returns NaN, or when [maxUsedCpuRatio] is
    NaN, [createCpuInfo] reports [isCpuOverloaded: false]; with a NaN from
    the sampler, [cpuCurrentUsage] is NaN. *)
Theorem createCpuInfo_nan (maxUsedCpuRatio : float) (w : World)
    (st : ModuleState) (usedCpuRatio : float) :
  completion (getCpuInfo w st) = Ok usedCpuRatio →
  usedCpuRatio = nan ∨ maxUsedCpuRatio = nan →
  let info := LocalEventManager.createCpuInfo maxUsedCpuRatio w st in
  field "isCpuOverloaded" info = Some (VBoolean false)
  ∧ (usedCpuRatio = nan → field "cpuCurrentUsage" info = Some (VNumber nan)).
Proof.
  intros Hcpu Hnan. cbv zeta. unfold field.
  rewrite createCpuInfo_run. cbv zeta. rewrite Hcpu. cbn [completion].
  rewrite lookup_insert_eq.
  rewrite lookup_insert_ne by (intros ?; discriminate).
  rewrite lookup_insert_eq.
  split.
  - destruct Hnan as [-> | ->]; [rewrite ltb_nan_r | rewrite ltb_nan_l];
      reflexivity.
  - intros ->. rewrite mul_nan_l. reflexivity.
Qed.

Lemma createCpuInfo_nan_witness :
  field "isCpuOverloaded"
        (LocalEventManager.createCpuInfo 0.75 noPeriodField initialState)
  = Some (VBoolean false).
Proof.
  refine (proj1 (createCpuInfo_nan 0.75 noPeriodField initialState nan _ _)).
  - vm_compute. reflexivity.
  - left. reflexivity.
Defined.

(** X10: the first finite-quota call of a module, whose stored sample is
    still the zero sample, computes its deltas against zero: it returns
    [(containerUsage / systemUsage) × numCpus × 100 / (quota / period)] of
    the cumulative counters. *)
Theorem getCpuInfo_first_sample (w : World) (st : ModuleState)
    (v : CgroupsVersion) (quota period : float) (sample : CpuSample) :
  isLambdaEnvironment w = false → containerised w = true →
  completion (getCgroupsVersion w st) = Ok v →
  completion (getCpuQuota v w st) = Ok (Some quota) →
  completion (getCpuPeriod v w st) = Ok period →
  completion (sampleCpuUsage v w st) = Ok sample →
  previousSample st = mkCpuSample 0 0 →
  completion (getCpuInfo w st)
  = Ok (containerUsage sample / systemUsage sample
        * JS.ofZ (Z.of_nat (length (cpus w))) * 100 / (quota / period))%float.
Proof.
  intros Hl Hc Hv Hq Hp Hs Hzero.
  destruct (getCpuInfo_finite_run w st v quota period sample Hl Hc Hv Hq Hp Hs)
    as [-> _].
  unfold quotaUsage. rewrite Hzero. cbn [containerUsage systemUsage].
  rewrite !sub_zero_r. reflexivity.
Qed.

Lemma getCpuInfo_first_sample_witness :
  completion (getCpuInfo scenarioB_first initialState) = Ok 50%float.
Proof.
  rewrite (getCpuInfo_first_sample scenarioB_first initialState V1
             200000 100000 (mkCpuSample 1000000000 4000000000));
    vm_compute; reflexivity.
Defined.

Lemma div_zero_r (x : float) : infiniteOrNaN (x / 0).
Proof.
  unfold infiniteOrNaN. rewrite FloatAxioms.div_spec. unfold SF64div.
  change (Prim2SF 0) with (S754_zero false).
  destruct (Prim2SF x); exact I.
Qed.

Lemma mul_infiniteOrNaN (x y : float) : infiniteOrNaN x → infiniteOrNaN (x * y).
Proof.
  unfold infiniteOrNaN. rewrite FloatAxioms.mul_spec. unfold SF64mul.
  destruct (Prim2SF x), (Prim2SF y); cbn; tauto.
Qed.

Lemma div_infiniteOrNaN (x y : float) : infiniteOrNaN x → infiniteOrNaN (x / y).
Proof.
  unfold infiniteOrNaN. rewrite FloatAxioms.div_spec. unfold SF64div.
  destruct (Prim2SF x), (Prim2SF y); cbn; tauto.
Qed.

(** X11: the finite-quota branch has no guard against a system delta of
    zero.  When the system usage read is the same finite number as at the
    call before, [getCpuInfo] completes with an infinity or NaN, never
    with a finite number; when the container usage has not moved either,
    it is NaN. *)
Theorem getCpuInfo_no_elapsed_ticks (w : World) (st : ModuleState)
    (v : CgroupsVersion) (quota period : float) (sample : CpuSample) :
  isLambdaEnvironment w = false → containerised w = true →
  completion (getCgroupsVersion w st) = Ok v →
  completion (getCpuQuota v w st) = Ok (Some quota) →
  completion (getCpuPeriod v w st) = Ok period →
  completion (sampleCpuUsage v w st) = Ok sample →
  finite (systemUsage sample) →
  systemUsage sample = systemUsage (previousSample st) →
  (∃ x, completion (getCpuInfo w st) = Ok x ∧ infiniteOrNaN x)
  ∧ (finite (containerUsage sample) →
     containerUsage sample = containerUsage (previousSample st) →
     completion (getCpuInfo w st) = Ok nan).
Proof.
  intros Hl Hc Hv Hq Hp Hs Hfinite Hsame.
  destruct (getCpuInfo_finite_run w st v quota period sample Hl Hc Hv Hq Hp Hs)
    as [-> _].
  unfold quotaUsage. rewrite <- Hsame, (sub_diag _ Hfinite).
  split.
  - eexists. split; [reflexivity|].
    apply div_infiniteOrNaN, mul_infiniteOrNaN, mul_infiniteOrNaN, div_zero_r.
  - intros Hfinite' Hsame'. rewrite <- Hsame', (sub_diag _ Hfinite').
    change (0 / 0)%float with nan.
    rewrite !mul_nan_l, div_nan_l. reflexivity.
Qed.

Lemma getCpuInfo_no_elapsed_ticks_witness :
  ∃ x, completion (getCpuInfo scenarioB_stalled
                     (final (getCpuInfo scenarioB_first initialState))) = Ok x
       ∧ infiniteOrNaN x.
Proof.
  refine (proj1 (getCpuInfo_no_elapsed_ticks scenarioB_stalled
                   (final (getCpuInfo scenarioB_first initialState)) V1
                   200000 100000 (mkCpuSample 1000500000 4000000000)
                   _ _ _ _ _ _ _ _));
    vm_compute; first [reflexivity | exact I].
Defined.

(* ===================================================================== *)
(** * Further properties of the aggregator *)
(* ===================================================================== *)

Lemma sampling_no_emit (calls : list Event) :
  forallb isSamplingCall calls = true → List.filter isEmit calls = [].
Proof.
  induction calls as [|ev calls IH]; [reflexivity|].
  cbn [forallb List.filter]. intros H. apply andb_true_iff in H as [Hev H].
  destruct ev; try discriminate; cbn [isEmit]; apply IH, H.
Qed.

Lemma restOfTick_emits (cfg : Configuration) (calls : list Event) :
  restOfTick cfg calls → (length (List.filter isEmit calls) ≤ 1)%nat.
Proof.
  intros (w & st & before & Htrace).
  destruct (invoke_trace cfg w st) as (sampling & info & Hshape & Hsampling).
  rewrite Hshape in Htrace.
  apply (f_equal (λ l, length (List.filter isEmit l))) in Htrace.
  rewrite !List.filter_app, !length_app in Htrace.
  rewrite (sampling_no_emit _ Hsampling) in Htrace. cbn in Htrace. lia.
Qed.

Lemma reachable_restOfTick (cfg : Configuration) (l : Loop) :
  reachable cfg l →
  ∀ calls, In calls (outstanding l) → restOfTick cfg calls.
Proof.
  intros (w & st & Hrtc). revert l Hrtc.
  apply (rtc_ind_r (λ l, ∀ calls, In calls (outstanding l) → restOfTick cfg calls)
                   (init cfg w st)).
  - intros calls [<- | []]. exists w, st, []. reflexivity.
  - intros l l' _ Hstep IH calls Hin.
    destruct Hstep as [l w' Hpending | l before after ev rest Hout | l].
    + cbn in Hin. apply in_app_iff in Hin as [Hin | [<- | []]].
      * apply IH, Hin.
      * exists w', (moduleState l), []. reflexivity.
    + rewrite perform_outstanding in Hin. rewrite Hout in IH.
      apply in_app_iff in Hin as [Hin | Hin].
      { apply IH, in_app_iff. left. exact Hin. }
      apply in_app_iff in Hin as [Hin | Hin].
      2: { apply IH, in_app_iff. right. right. exact Hin. }
      destruct rest as [|ev' rest]; [destruct Hin|].
      destruct Hin as [<- | []].
      destruct (IH (ev :: ev' :: rest)) as (w1 & st1 & pre & Hpre).
      { apply in_app_iff. right. left. reflexivity. }
      exists w1, st1, (pre ++ [ev]). rewrite <- app_assoc. exact Hpre.
    + apply IH, Hin.
Qed.

Lemma emitsLeft_reachable (cfg : Configuration) (l : Loop) :
  reachable cfg l → (emitsLeft (outstanding l) ≤ 1)%nat.
Proof.
  intros Hreach. unfold emitsLeft.
  pose proof (reachable_restOfTick cfg l Hreach) as Hrest.
  destruct (reachable_oneAtATime cfg l Hreach) as [-> | (calls & Hone & _ & _)].
  - cbn. lia.
  - rewrite Hone in *. cbn [concat]. rewrite app_nil_r.
    apply (restOfTick_emits cfg), Hrest. left. reflexivity.
Qed.

Lemma emitsLeft_progress (before after : list (list Event)) (ev : Event)
    (rest : list Event) :
  emitsLeft (before ++ (ev :: rest) :: after)
  = ((if isEmit ev then 1 else 0)
     + emitsLeft (before ++ remaining rest ++ after))%nat.
Proof.
  unfold emitsLeft.
  rewrite !concat_app, !List.filter_app, !length_app. cbn [concat].
  rewrite !List.filter_app, !length_app.
  assert (Hrest : concat (remaining rest) = rest).
  { destruct rest; [reflexivity | apply app_nil_r]. }
  rewrite Hrest. cbn [List.filter].
  destruct (isEmit ev); cbn [length]; lia.
Qed.

Lemma closed_step (cfg : Configuration) (l l' : Loop) :
  isRunning l = false → timeoutPending l = false → step cfg l l' →
  isRunning l' = false ∧ timeoutPending l' = false
  ∧ (length (outstanding l') ≤ length (outstanding l))%nat
  ∧ ∃ more,
      published l' = published l ++ more
      ∧ (length more + emitsLeft (outstanding l')
         = emitsLeft (outstanding l))%nat.
Proof.
  intros Hrun Hpending Hstep.
  destruct Hstep as [l w Hfire | l before after ev rest Hout | l].
  - congruence.
  - rewrite Hout, emitsLeft_progress, perform_outstanding.
    assert (Hlen : (length (before ++ remaining rest ++ after)
                    ≤ length (before ++ (ev :: rest) :: after))%nat).
    { rewrite !length_app. cbn [length]. destruct rest; cbn; lia. }
    destruct ev; cbn [perform isRunning timeoutPending published isEmit];
      rewrite ?Hrun; repeat split; try assumption;
      try (exists []; rewrite app_nil_r; split; [reflexivity | cbn; lia]).
    eexists. split; reflexivity.
  - unfold close. cbn [isRunning timeoutPending outstanding published].
    repeat split; try lia.
    exists []. rewrite app_nil_r. split; reflexivity.
Qed.

(** X12: once the manager is closed, the timer never calls
    [emitSystemInfoEvent] again and holds no timeout; an invocation that
    was outstanding is left to finish, so the list of published snapshots
    only grows at its end, by one snapshot at most. *)
Theorem close_stops_ticks (cfg : Configuration) (l l' : Loop) :
  reachable cfg l → rtc (step cfg) (close l) l' →
  isRunning l' = false ∧ timeoutPending l' = false
  ∧ (length (outstanding l') ≤ length (outstanding l))%nat
  ∧ ∃ more, published l' = published l ++ more ∧ (length more ≤ 1)%nat.
Proof.
  intros Hreach Hrtc.
  assert (Hinv : isRunning l' = false ∧ timeoutPending l' = false
            ∧ (length (outstanding l') ≤ length (outstanding l))%nat
            ∧ ∃ more, published l' = published l ++ more
                ∧ (length more + emitsLeft (outstanding l')
                   = emitsLeft (outstanding l))%nat).
  { revert l' Hrtc.
    apply (rtc_ind_r
             (λ l', isRunning l' = false ∧ timeoutPending l' = false
                ∧ (length (outstanding l') ≤ length (outstanding l))%nat
                ∧ ∃ more, published l' = published l ++ more
                    ∧ (length more + emitsLeft (outstanding l')
                       = emitsLeft (outstanding l))%nat)
             (close l)).
    - unfold close. cbn [isRunning timeoutPending outstanding published].
      repeat split; try lia.
      exists []. rewrite app_nil_r. split; reflexivity.
    - intros l1 l2 _ Hstep (Hrun & Hpending & Hlen & more & Hpub & Hcount).
      destruct (closed_step cfg l1 l2 Hrun Hpending Hstep)
        as (Hrun' & Hpending' & Hlen' & more' & Hpub' & Hcount').
      repeat split; try assumption; try lia.
      exists (more ++ more'). rewrite Hpub', Hpub, app_assoc.
      split; [reflexivity|]. rewrite length_app. lia. }
  destruct Hinv as (Hrun & Hpending & Hlen & more & Hpub & Hcount).
  repeat split; try assumption.
  exists more. split; [exact Hpub|].
  pose proof (emitsLeft_reachable cfg l Hreach). lia.
Qed.

Lemma close_stops_ticks_witness :
  let l := init config scenarioA initialState in
  let l' := play (trace (invoke config scenarioA initialState)) (close l) in
  isRunning l' = false ∧ timeoutPending l' = false.
Proof.
  intros l l'.
  destruct (close_stops_ticks config l l') as (Hrun & Hpending & _).
  - exists scenarioA, initialState. apply rtc_refl.
  - apply (play_steps config). vm_compute. reflexivity.
  - split; assumption.
Defined.

Lemma play_published (calls : list Event) (l : Loop) :
  published (play calls l) = published l ++ snapshots calls
  ∧ isRunning (play calls l) = isRunning l.
Proof.
  revert l. induction calls as [|ev rest IH]; intros l.
  - cbn. rewrite app_nil_r. split; reflexivity.
  - cbn [play]. destruct (IH (perform ev l (remaining rest))) as [-> ->].
    destruct ev; cbn [perform published isRunning snapshots omap];
      rewrite <- ?app_assoc; split; reflexivity.
Qed.

Lemma play_endsWithCallback (calls : list Event) (l : Loop) :
  endsWithCallback calls → isRunning l = true →
  outstanding (play calls l) = [] ∧ timeoutPending (play calls l) = true.
Proof.
  intros (before & -> & Hbefore) Hrun. revert l Hrun.
  induction Hbefore as [|ev before Hev _ IH]; intros l Hrun.
  - cbn. rewrite Hrun. split; reflexivity.
  - cbn [app play]. apply IH.
    destruct ev; exact Hrun.
Qed.

(** X15: while the manager is open, the outstanding invocation runs to
    its end: it publishes its snapshot, appended to those published
    before, and its last call sets the timeout for the next invocation. *)
Theorem tick_rearms_timer (cfg : Configuration) (l : Loop) (calls : list Event) :
  reachable cfg l → isRunning l = true → outstanding l = [calls] →
  let l' := play calls l in
  rtc (step cfg) l l'
  ∧ outstanding l' = [] ∧ timeoutPending l' = true ∧ isRunning l' = true
  ∧ published l' = published l ++ snapshots calls
  ∧ (length (snapshots calls) ≤ 1)%nat.
Proof.
  intros Hreach Hrun Hone. cbv zeta.
  destruct (reachable_oneAtATime cfg l Hreach)
    as [Hnone | (calls' & Hone' & Hends & _)]; [congruence|].
  rewrite Hone in Hone'. injection Hone' as <-.
  destruct (play_endsWithCallback calls l Hends Hrun) as [Hout Hpending].
  destruct (play_published calls l) as [Hpub Hrun'].
  split.
  { apply play_steps. rewrite Hone.
    destruct Hends as (before & -> & _). destruct before; reflexivity. }
  repeat split; try assumption; try congruence.
  assert (Hsnap : ∀ tr, length (snapshots tr) = length (List.filter isEmit tr)).
  { unfold snapshots. induction tr as [|ev tr IH]; [reflexivity|].
    destruct ev; cbn; rewrite ?IH; reflexivity. }
  rewrite Hsnap. apply (restOfTick_emits cfg).
  apply (reachable_restOfTick cfg l Hreach). rewrite Hone. left. reflexivity.
Qed.

Lemma tick_rearms_timer_witness :
  let l := init config scenarioA initialState in
  let l' := play (trace (invoke config scenarioA initialState)) l in
  outstanding l' = [] ∧ timeoutPending l' = true.
Proof.
  intros l l'.
  destruct (tick_rearms_timer config l
              (trace (invoke config scenarioA initialState)))
    as (_ & Hout & Hpending & _).
  - exists scenarioA, initialState. apply rtc_refl.
  - reflexivity.
  - reflexivity.
  - split; assumption.
Defined.

(** X16: a tick leaves the module state exactly as its call of
    [getCpuInfo] leaves it, whatever fails: the memory sampler, the logger
    and the publication never touch it. *)
Theorem tick_state (cfg : Configuration) (w : World) (st : ModuleState) :
  final (invoke cfg w st) = final (getCpuInfo w st)
  ∧ length (snapshots (trace (invoke cfg w st))) = 1%nat.
Proof.
  pose proof (createCpuInfo_run (maxUsedCpuRatio cfg) w st) as Hcpu.
  cbv zeta in Hcpu.
  pose proof (createMemoryInfo_run w (final (getCpuInfo w st))) as Hmem.
  pose proof (getCpuInfo_trace_sampling w st) as Hsampling.
  assert (Hnone : ∀ tr, forallb isSamplingCall tr = true → snapshots tr = []).
  { unfold snapshots. induction tr as [|ev tr IH]; [reflexivity|].
    cbn [forallb]. intros H. apply andb_true_iff in H as [Hev H].
    destruct ev; try discriminate; cbn; apply IH, H. }
  assert (Happ : ∀ tr tr', snapshots (tr ++ tr') = snapshots tr ++ snapshots tr').
  { intros tr tr'. unfold snapshots. apply omap_app. }
  unfold invoke.
  destruct (completion (getCpuInfo w st)) as [usedCpuRatio|e];
    destruct (memoryInfo w) as [e'|memInfo];
    rewrite (emitSystemInfoEvent_run _ _ _ _ _ _ _ _ _ _ Hcpu Hmem);
    unfold prepend, scheduleCall; cbn [final trace tell];
    (split; [reflexivity|]);
    rewrite !Happ, (Hnone _ Hsampling); reflexivity.
Qed.

